(** * ValutaTrade Hub: currency registry, rate lookup and portfolio commands

    A shallow embedding of [valutatrade_hub/core/currencies.py] and of the
    commands of [valutatrade_hub/cli/interface.py], with the properties the
    specification states about them.

    Conventions of the embedding.
    - Python [float] is IEEE binary64: Rocq's primitive [float], with the
      same operations and comparisons ([x != 0] is [negb (x =? 0)], so [-0.0]
      counts as zero and a NaN does not).  JSON numbers are read as floats.
    - Python [str] is [string]; the model covers ASCII text ([upper],
      [strip] and [isupper] act on the ASCII letters and white space and
      leave other bytes alone).
    - A Python [dict] is an association list in insertion order with
      pairwise distinct keys; [dict_set] overwrites in place or appends.
    - [print] is an event of the command's trace, one constructor of [line]
      per [print] statement of the source, carrying the interpolated values
      unformatted; [save_portfolios] is an event too.
    - An exception is a value of [exn]; functions that may raise return a
      [result].
    - The format specifications [.2e] and [,.2f] are the functions of
      [Format], which round the exact value of the float. *)

From Stdlib Require Import Bool List ZArith Lia String Ascii Floats.
Import ListNotations.

Set Warnings "-inexact-float".
Open Scope string_scope.

(** ** The Python run time the sources rely on *)

Module Py.

(** Exceptions raised by the sources: the built-in ones, and the three of
    [core/exceptions.py] they import. *)
Inductive exn : Type :=
| ValueError (msg : string)
| TypeError (msg : string)
| KeyError (key : string)
| AttributeError (msg : string)
| CurrencyNotFoundError (code : string)
| ApiRequestError (msg : string)
| InsufficientFundsError (code : string) (available required : float).

Inductive result (A : Type) : Type :=
| Ok (a : A)
| Raise (e : exn).
Arguments Ok {A} a.
Arguments Raise {A} e.

Definition rbind {A B} (r : result A) (k : A -> result B) : result B :=
  match r with
  | Ok a => k a
  | Raise e => Raise e
  end.

(** *** [str] methods *)

Definition is_lower (c : ascii) : bool :=
  let n := nat_of_ascii c in (97 <=? n)%nat && (n <=? 122)%nat.

Definition is_upper (c : ascii) : bool :=
  let n := nat_of_ascii c in (65 <=? n)%nat && (n <=? 90)%nat.

Definition is_digit (c : ascii) : bool :=
  let n := nat_of_ascii c in (48 <=? n)%nat && (n <=? 57)%nat.

(** [str.isspace] on ASCII: TAB, LF, VT, FF, CR, FS, GS, RS, US, space. *)
Definition is_space (c : ascii) : bool :=
  let n := nat_of_ascii c in
  ((9 <=? n)%nat && (n <=? 13)%nat) || ((28 <=? n)%nat && (n <=? 32)%nat).

Definition upper_char (c : ascii) : ascii :=
  if is_lower c then ascii_of_nat (nat_of_ascii c - 32) else c.

Fixpoint upper (s : string) : string :=
  match s with
  | EmptyString => EmptyString
  | String c s' => String (upper_char c) (upper s')
  end.

Fixpoint lstrip (s : string) : string :=
  match s with
  | EmptyString => EmptyString
  | String c s' => if is_space c then lstrip s' else s
  end.

Fixpoint rstrip (s : string) : string :=
  match s with
  | EmptyString => EmptyString
  | String c s' =>
      match rstrip s' with
      | EmptyString => if is_space c then EmptyString else String c EmptyString
      | r => String c r
      end
  end.

Definition strip (s : string) : string := rstrip (lstrip s).

Fixpoint any_char (p : ascii -> bool) (s : string) : bool :=
  match s with
  | EmptyString => false
  | String c s' => p c || any_char p s'
  end.

(** [s.isupper()]: at least one cased character, and no lowercase one. *)
Definition isupper (s : string) : bool :=
  any_char is_upper s && negb (any_char is_lower s).

(** [c in s] for a one-character [c]. *)
Definition contains_char (c : ascii) (s : string) : bool :=
  any_char (Ascii.eqb c) s.

Definition len (s : string) : nat := String.length s.

(** Truth value of a string: [not s] is [is_empty s]. *)
Definition is_empty (s : string) : bool :=
  match s with EmptyString => true | _ => false end.

(** *** [dict] with [str] keys *)

Definition dict (V : Type) : Type := list (string * V).

Fixpoint dict_get {V} (k : string) (d : dict V) : option V :=
  match d with
  | [] => None
  | (k', v) :: d' => if String.eqb k k' then Some v else dict_get k d'
  end.

Definition dict_in {V} (k : string) (d : dict V) : bool :=
  match dict_get k d with Some _ => true | None => false end.

Fixpoint dict_set {V} (k : string) (v : V) (d : dict V) : dict V :=
  match d with
  | [] => [(k, v)]
  | (k', v') :: d' =>
      if String.eqb k k' then (k', v) :: d' else (k', v') :: dict_set k v d'
  end.

Definition dict_keys {V} (d : dict V) : list string := map fst d.

(** The last character of [s], or [default] if it has none. *)
Fixpoint last_char (s : string) (default : ascii) : ascii :=
  match s with
  | EmptyString => default
  | String c s' => last_char s' c
  end.

(** [k in l] for a list of strings. *)
Definition in_list (k : string) (l : list string) : bool :=
  existsb (String.eqb k) l.

End Py.

Import Py.

(** ** Python's formatting of floats

    [format(x, ".2e")] and [format(x, ",.2f")]: the exact value of the
    float is rounded to the digits asked for, ties to even. *)

Module Format.

(** The decimal digit of [n] modulo 10. *)
Definition digit (n : Z) : ascii :=
  ascii_of_nat (48 + Z.to_nat (n mod 10)).

(** The decimal digits of [n >= 0], most significant first. *)
Fixpoint decimal_fuel (fuel : nat) (n : Z) (acc : string) : string :=
  match fuel with
  | O => acc
  | S fuel' =>
      let acc' := String (digit n) acc in
      if (n <? 10)%Z then acc' else decimal_fuel fuel' (n / 10) acc'
  end.

Definition decimal (n : Z) : string :=
  decimal_fuel (S (Z.to_nat (Z.log2 n))) n "".

(** [n >= 0] with a comma before every group of three digits. *)
Fixpoint grouped_fuel (fuel : nat) (n : Z) (acc : string) : string :=
  match fuel with
  | O => acc
  | S fuel' =>
      if (n <? 1000)%Z then decimal n ++ acc
      else grouped_fuel fuel' (n / 1000)
             (String ","
                (String (digit (n / 100))
                   (String (digit (n / 10)) (String (digit n) acc))))
  end.

Definition grouped (n : Z) : string :=
  grouped_fuel (S (Z.to_nat (Z.log2 n))) n "".

(** [num / den] rounded to the nearest integer, ties to even. *)
Definition round_half_even (num den : Z) : Z :=
  let q := (num / den)%Z in
  match (2 * (num mod den) ?= den)%Z with
  | Lt => q
  | Gt => (q + 1)%Z
  | Eq => if Z.even q then q else (q + 1)%Z
  end.

(** The value [m * 2 ^ e] as a fraction. *)
Definition fraction (m : positive) (e : Z) : Z * Z :=
  if (0 <=? e)%Z then (Zpos m * 2 ^ e, 1)%Z else (Zpos m, 2 ^ (- e))%Z.

Definition sign_prefix (s : bool) : string := if s then "-" else "".

(** [f"{x:,.2f}"]. *)
Definition format_grouped_2f (x : float) : string :=
  match Prim2SF x with
  | S754_nan => "nan"
  | S754_infinity s => sign_prefix s ++ "inf"
  | S754_zero s => sign_prefix s ++ "0.00"
  | S754_finite s m e =>
      let (num, den) := fraction m e in
      let hundredths := round_half_even (num * 100) den in
      sign_prefix s ++ grouped (hundredths / 100)
        ++ String "." (String (digit (hundredths / 10))
                         (String (digit hundredths) ""))
  end.

(** Whether [num / den >= 10 ^ x]. *)
Definition at_least_pow10 (num den x : Z) : bool :=
  if (0 <=? x)%Z then (den * 10 ^ x <=? num)%Z
  else (den <=? num * 10 ^ (- x))%Z.

(** The largest [x], searched downwards from [x], with
    [10 ^ x <= num / den]. *)
Fixpoint floor_log10 (fuel : nat) (num den x : Z) : Z :=
  match fuel with
  | O => x
  | S fuel' =>
      if at_least_pow10 num den x then x
      else floor_log10 fuel' num den (x - 1)
  end.

(** Three significant digits of [num / den] and their decimal exponent. *)
Definition scientific (num den : Z) : Z * Z :=
  let x := floor_log10 640 num den 310 in
  let d := if (2 <=? x)%Z then round_half_even num (den * 10 ^ (x - 2))
           else round_half_even (num * 10 ^ (2 - x)) den in
  if (d =? 1000)%Z then (100, x + 1)%Z else (d, x).

Definition exponent (x : Z) : string :=
  (if (x <? 0)%Z then "-" else "+")
    ++ (if (Z.abs x <? 10)%Z then "0" else "") ++ decimal (Z.abs x).

(** [f"{x:.2e}"]. *)
Definition format_2e (x : float) : string :=
  match Prim2SF x with
  | S754_nan => "nan"
  | S754_infinity s => sign_prefix s ++ "inf"
  | S754_zero s => sign_prefix s ++ "0.00e+00"
  | S754_finite s m e =>
      let (num, den) := fraction m e in
      let (d, x) := scientific num den in
      sign_prefix s
        ++ String (digit (d / 100))
             (String "." (String (digit (d / 10)) (String (digit d) "")))
        ++ "e" ++ exponent x
  end.

End Format.

Import Format.

Declare Scope result_scope.
Delimit Scope result_scope with result.
Notation "x <- r ;; k" := (rbind r (fun x => k))
  (at level 100, r at next level, right associativity) : result_scope.

(** ** [core/currencies.py] *)

Module Currencies.

(** The two concrete subclasses of the abstract [Currency]: the attributes
    an instance carries once its constructor has returned. *)
Inductive Currency : Type :=
| Fiat (name code issuing_country : string)
| Crypto (name code algorithm : string) (market_cap : float).

Definition name (c : Currency) : string :=
  match c with Fiat n _ _ => n | Crypto n _ _ _ => n end.

Definition code (c : Currency) : string :=
  match c with Fiat _ k _ => k | Crypto _ k _ _ => k end.

(** [Currency._validate_code]; the [isinstance] test holds by typing. *)
Definition _validate_code (code : string) : result unit :=
  if negb ((2 <=? len code)%nat && (len code <=? 5)%nat) then
    Raise (ValueError "Код валюты должен содержать от 2 до 5 символов")
  else if negb (isupper code) then
    Raise (ValueError "Код валюты должен быть в верхнем регистре")
  else if contains_char " "%char code then
    Raise (ValueError "Код валюты не может содержать пробелы")
  else Ok tt.

(** [Currency._validate_name]. *)
Definition _validate_name (name : string) : result unit :=
  if is_empty (strip name) then Raise (ValueError "Имя валюты не может быть пустым")
  else Ok tt.

(** [Currency.__init__]: the code is validated before the name. *)
Definition Currency_init (name code : string) : result unit :=
  (_ <- _validate_code code ;;
   _ <- _validate_name name ;;
   Ok tt)%result.

(** [FiatCurrency(name, code, issuing_country)]. *)
Definition FiatCurrency (name code issuing_country : string)
  : result Currency :=
  (_ <- Currency_init name code ;;
   Ok (Fiat name code issuing_country))%result.

(** [CryptoCurrency(name, code, algorithm, market_cap)]. *)
Definition CryptoCurrency (name code algorithm : string)
  (market_cap : float) : result Currency :=
  (_ <- Currency_init name code ;;
   Ok (Crypto name code algorithm market_cap))%result.

(** [market_cap] as [get_display_info] formats it:
    [f"{x:.2e}" if x > 1e9 else f"{x:,.2f}"]. *)
Definition mcap_display (market_cap : float) : string :=
  if (1e9 <? market_cap)%float then format_2e market_cap
  else format_grouped_2f market_cap.

(** [get_display_info], dispatched on the class of the instance. *)
Definition get_display_info (c : Currency) : string :=
  match c with
  | Fiat name code issuing_country =>
      "[FIAT] " ++ code ++ " — " ++ name
        ++ " (Issuing: " ++ issuing_country ++ ")"
  | Crypto name code algorithm market_cap =>
      "[CRYPTO] " ++ code ++ " — " ++ name
        ++ " (Algo: " ++ algorithm
        ++ ", MCAP: " ++ mcap_display market_cap ++ ")"
  end.

(** [_initialize_currencies], run on the registry [reg]: every constructor
    call validates its arguments, then each currency is stored under its
    code. *)
Definition _initialize_currencies (reg : dict Currency)
  : result (dict Currency) :=
  (usd <- FiatCurrency "US Dollar" "USD" "United States" ;;
   eur <- FiatCurrency "Euro" "EUR" "Eurozone" ;;
   rub <- FiatCurrency "Russian Ruble" "RUB" "Russia" ;;
   gbp <- FiatCurrency "British Pound" "GBP" "United Kingdom" ;;
   jpy <- FiatCurrency "Japanese Yen" "JPY" "Japan" ;;
   let fiats := [usd; eur; rub; gbp; jpy] in
   btc <- CryptoCurrency "Bitcoin" "BTC" "SHA-256" 1.12e12 ;;
   eth <- CryptoCurrency "Ethereum" "ETH" "Ethash" 3.5e11 ;;
   ltc <- CryptoCurrency "Litecoin" "LTC" "Scrypt" 5.8e9 ;;
   ada <- CryptoCurrency "Cardano" "ADA" "Ouroboros" 1.2e10 ;;
   let cryptos := [btc; eth; ltc; ada] in
   Ok (fold_left (fun r currency => dict_set (code currency) currency r)
         (fiats ++ cryptos) reg))%result.

(** The module-level [_currency_registry] once the module is imported:
    empty, then filled by the call on the last line of the file. *)
Definition _currency_registry : dict Currency :=
  match _initialize_currencies [] with
  | Ok reg => reg
  | Raise _ => []
  end.

(** [get_currency(code)]; the registry is filled again only if empty. *)
Definition get_currency (code : string) : result Currency :=
  let code := strip (upper code) in
  (reg <- (match _currency_registry with
           | [] => _initialize_currencies []
           | reg => Ok reg
           end) ;;
   match dict_get code reg with
   | None => Raise (CurrencyNotFoundError code)
   | Some currency => Ok currency
   end)%result.

(** [get_all_currencies()]: a copy of the registry. *)
Definition get_all_currencies : dict Currency := _currency_registry.

End Currencies.

(** ** [core/models.py]: users, wallets and portfolios *)

Module Models.

(** Modelled from the spec: class [User] of [core/models.py], which is not
    among the sources; the commands read its [user_id] and [username]. *)
Record User : Type := { user_id : Z; username : string }.

(** Modelled from the spec: class [Wallet] of [core/models.py], which is
    not among the sources.  Section 3: a wallet is keyed by currency code
    and holds a balance. *)
Record Wallet : Type := { currency_code : string; balance : float }.

(** Modelled from the spec: [Wallet.deposit] (section 4.4): fails with
    InvalidAmount if [amount <= 0], otherwise [balance += amount].  The
    commands catch the failure as a [ValueError]. *)
Definition deposit (w : Wallet) (amount : float) : result Wallet :=
  if (amount <=? 0)%float then Raise (ValueError "InvalidAmount")
  else Ok {| currency_code := currency_code w;
             balance := (balance w + amount)%float |}.

(** Modelled from the spec: [Wallet.withdraw] (section 4.4): fails with
    InvalidAmount if [amount <= 0], with InsufficientFunds if
    [amount > balance], otherwise [balance -= amount]. *)
Definition withdraw (w : Wallet) (amount : float) : result Wallet :=
  if (amount <=? 0)%float then Raise (ValueError "InvalidAmount")
  else if (balance w <? amount)%float then
    Raise (InsufficientFundsError (currency_code w) (balance w) amount)
  else Ok {| currency_code := currency_code w;
             balance := (balance w - amount)%float |}.

(** Modelled from the spec: class [Portfolio] of [core/models.py], which
    is not among the sources.  Section 3: one portfolio per user, a
    mapping from currency code to wallet. *)
Record Portfolio : Type := { owner : Z; wallets : dict Wallet }.

(** Modelled from the spec: [Portfolio.get_wallet]. *)
Definition get_wallet (p : Portfolio) (code : string) : option Wallet :=
  dict_get code (wallets p).

(** Modelled from the spec: [Portfolio.get_or_create_wallet] (section
    4.4): the existing wallet, or a new one with balance 0 inserted into
    the mapping.  The portfolio after the call comes with the wallet. *)
Definition get_or_create_wallet (p : Portfolio) (code : string)
  : Portfolio * Wallet :=
  match dict_get code (wallets p) with
  | Some w => (p, w)
  | None =>
      let w := {| currency_code := code; balance := 0%float |} in
      ({| owner := owner p; wallets := dict_set code w (wallets p) |}, w)
  end.

(** The wallet object handed out by [get_wallet] is the one the portfolio
    holds: a mutation of it is a mutation of the portfolio. *)
Definition set_wallet (p : Portfolio) (code : string) (w : Wallet)
  : Portfolio :=
  {| owner := owner p; wallets := dict_set code w (wallets p) |}.

(** Modelled from the spec: [Portfolio.from_dict] and [Portfolio.to_dict]
    (section 8): serialising then deserialising preserves every balance
    exactly, so the stored form is identified with the object. *)
Definition from_dict (data : Portfolio) : Portfolio := data.
Definition to_dict (p : Portfolio) : Portfolio := p.

End Models.

(** ** [cli/interface.py] *)

Module Interface.

Import Currencies Models.

(** A value of the dictionary built by [parse_args]: the string that
    follows [--key], or [True] when none does. *)
Inductive arg : Type :=
| ArgTrue
| ArgStr (s : string).

Record Args : Type := {
  arg_base : option arg;
  arg_currency : option arg;
  arg_amount : option arg;
  arg_from : option arg;
  arg_to : option arg
}.

(** [not args.get(key)]. *)
Definition falsy (a : option arg) : bool :=
  match a with
  | None => true
  | Some ArgTrue => false
  | Some (ArgStr s) => is_empty s
  end.

(** A [str] method called on an argument: [True] has none. *)
Definition as_str (a : arg) : result string :=
  match a with
  | ArgStr s => Ok s
  | ArgTrue => Raise (AttributeError "'bool' object has no attribute 'upper'")
  end.

(** An argument interpolated into an f-string. *)
Definition fstr (a : arg) : string :=
  match a with
  | ArgStr s => s
  | ArgTrue => "True"
  end.

(** [code == a] for a string [code]: [True] equals no string. *)
Definition str_eq (code : string) (a : arg) : bool :=
  match a with
  | ArgStr s => String.eqb code s
  | ArgTrue => false
  end.

(** The value stored under a key of [rates.json]: for a pair key the
    object with its [rate] and, as the parser writes it, its
    [updated_at]; for the keys [source] and [last_refresh] a string. *)
Record rate_data : Type := { rate : float; updated_at : option string }.

Inductive rates_value : Type :=
| Quote (d : rate_data)
| Meta (s : string).

Definition rates_table : Type := dict rates_value.

(** [value['rate']]. *)
Definition item_rate (v : rates_value) : result float :=
  match v with
  | Quote d => Ok (rate d)
  | Meta _ => Raise (TypeError "string indices must be integers")
  end.

(** [value['updated_at']]. *)
Definition item_updated_at (v : rates_value) : result string :=
  match v with
  | Quote d =>
      match updated_at d with
      | Some t => Ok t
      | None => Raise (KeyError "updated_at")
      end
  | Meta _ => Raise (TypeError "string indices must be integers")
  end.

(** [d[k]]. *)
Definition dict_item {V} (k : string) (d : dict V) : result V :=
  match dict_get k d with
  | Some v => Ok v
  | None => Raise (KeyError k)
  end.

Definition metadata_keys : list string := ["source"; "last_refresh"].

(** The files the commands read: what [load_portfolios] returns, and what
    [load_rates] returns or raises. *)
Record Env : Type := {
  portfolios_file : list Portfolio;
  rates_file : result rates_table
}.

Definition load_portfolios (env : Env) : list Portfolio :=
  portfolios_file env.

Definition load_rates (env : Env) : result rates_table := rates_file env.

Record CLIState : Type := { current_user : option User }.

(** [find_portfolio_by_user_id]. *)
Fixpoint find_portfolio_by_user_id (portfolios : list Portfolio)
  (uid : Z) : option Portfolio :=
  match portfolios with
  | [] => None
  | portfolio :: rest =>
      if (owner portfolio =? uid)%Z then Some portfolio
      else find_portfolio_by_user_id rest uid
  end.

(** How a printed rate was obtained, as the line says it. *)
Inductive rate_note : Type :=
| Stored (updated_at : string)          (* (обновлено: t) *)
| ComputedStored (updated_at : string)  (* (расчетный, обновлено: t) *)
| Computed.                             (* (расчетный) *)

(** The lines the commands print, one constructor per [print]. *)
Inductive line : Type :=
| LoginFirst                        (* Сначала выполните login *)
| PortfolioNotFound                 (* Портфель не найден *)
| Warning (e : exn)                 (* Внимание: e *)
| UsingBaseRates                    (* Используются базовые курсы ... *)
| PortfolioEmpty                    (* Портфель пуст *)
| PortfolioHeader (username base : string)
| WalletBase (code : string) (balance value_in_base : float) (base : string)
| WalletValue (code : string) (balance value_in_base : float) (base : string)
| WalletRateNotFound (code : string) (balance : float)  (* курс не найден *)
| Separator
| Total (total_value : float) (base : string)            (* ИТОГО *)
| ShowError (e : exn)
| NeedCurrencyAmount
| AmountNotNumber
| AmountNotPositive
| BuyDoneAtRate (amount : float) (currency : string) (rate : float)
| EstimatedCost (estimated_cost : float)
| BuyDone (amount : float) (currency : string)
| SellDoneAtRate (amount : float) (currency : string) (rate : float)
| EstimatedRevenue (estimated_revenue : float)
| SellDone (amount : float) (currency : string)
| NoWallet (currency : string)
| PortfolioChanges
| BalanceChange (currency : string) (old_balance new_balance : float)
| ExnMessage (e : exn)              (* print(str(e)) *)
| CheckCurrencyCode
| ValidationError (e : exn)
| BuyError (e : exn)
| SellError (e : exn)
| NeedFromTo
| EmptyCodes
| RateLine (from_currency to_currency : string) (rate : float)
    (note : rate_note)              (* Курс A→B: r (...) *)
| ReverseRateLine (to_currency from_currency : string)
    (reverse_rate : float)          (* Обратный курс B→A: r *)
| RateUnavailable (from_currency to_currency : string)
| AvailableRates (keys : list string)
| UseHelpGetRate
| AvailableCurrencies (codes : list string)
| RateError (e : exn).

(** What a command does to the outside: it prints a line, or it rewrites
    the portfolios file. *)
Inductive event : Type :=
| Out (l : line)
| SavePortfolios (portfolios : list Portfolio).

(** How a block of statements ends: it falls through with a value, it
    executes [return], or it raises. *)
Inductive control (A : Type) : Type :=
| Next (a : A)
| Return
| Raised (e : exn).
Arguments Next {A} a.
Arguments Return {A}.
Arguments Raised {A} e.

(** A block of statements: the events it performs, and how it ends. *)
Definition cmd (A : Type) : Type := (list event * control A)%type.

Definition ret {A} (a : A) : cmd A := ([], Next a).

Definition bind {A B} (m : cmd A) (k : A -> cmd B) : cmd B :=
  match m with
  | (t, Next a) => let (t', c) := k a in ((t ++ t')%list, c)
  | (t, Return) => (t, Return)
  | (t, Raised e) => (t, Raised e)
  end.

Definition print (l : line) : cmd unit := ([Out l], Next tt).

Definition save_portfolios (portfolios : list Portfolio) : cmd unit :=
  ([SavePortfolios portfolios], Next tt).

Definition return_ {A} : cmd A := ([], Return).

Definition lift {A} (r : result A) : cmd A :=
  match r with
  | Ok a => ret a
  | Raise e => ([], Raised e)
  end.

(** [try: body except ...: handler e]: the handler runs after the events
    the body performed before it raised. *)
Definition try_except {A} (body : cmd A) (handler : exn -> cmd A) : cmd A :=
  match body with
  | (t, Raised e) => let (t', c) := handler e in ((t ++ t')%list, c)
  | other => other
  end.

(** The events of a whole command. *)
Definition trace {A} (c : cmd A) : list event := fst c.

Declare Scope cmd_scope.
Delimit Scope cmd_scope with cmd.
Notation "x <- m ;; k" := (bind m (fun x => k))
  (at level 100, m at next level, right associativity) : cmd_scope.
Notation "m >> k" := (bind m (fun _ => k))
  (at level 100, k at level 200, right associativity) : cmd_scope.

(** The loop shared by the three portfolio commands:
    [for key, value in rates.items():
       if key != 'source' and key != 'last_refresh':
         exchange_rates[key] = value['rate']]. *)
Fixpoint build_exchange_rates (items : rates_table)
  (exchange_rates : dict float) : result (dict float) :=
  match items with
  | [] => Ok exchange_rates
  | (key, value) :: rest =>
      if negb (String.eqb key "source")
         && negb (String.eqb key "last_refresh") then
        (r <- item_rate value ;;
         build_exchange_rates rest (dict_set key r exchange_rates))%result
      else build_exchange_rates rest exchange_rates
  end.

(** The table [show_portfolio_command] falls back on when [load_rates]
    raises. *)
Definition base_rates : rates_table :=
  [ ("EUR_USD", Quote {| rate := 1.08; updated_at := None |});
    ("BTC_USD", Quote {| rate := 50000.0; updated_at := None |});
    ("ETH_USD", Quote {| rate := 3000.0; updated_at := None |}) ].

(** The loop over [portfolio.wallets.items()] of
    [show_portfolio_command], started with the running [total_value]; it
    yields the total. *)
Fixpoint wallets_loop (base : arg) (exchange_rates : dict float)
  (items : dict Wallet) (total_value : float) : cmd float :=
  match items with
  | [] => ret total_value
  | (currency_code, wallet) :: rest =>
      let balance := balance wallet in
      if str_eq currency_code base then
        let value_in_base := balance in
        (print (WalletBase currency_code balance value_in_base (fstr base)) >>
         wallets_loop base exchange_rates rest
           (total_value + value_in_base)%float)%cmd
      else
        let rate_key := (currency_code ++ "_" ++ fstr base)%string in
        if dict_in rate_key exchange_rates then
          (rate <- lift (dict_item rate_key exchange_rates) ;;
           let value_in_base := (balance * rate)%float in
           print (WalletValue currency_code balance value_in_base
                    (fstr base)) >>
           wallets_loop base exchange_rates rest
             (total_value + value_in_base)%float)%cmd
        else
          (print (WalletRateNotFound currency_code balance) >>
           wallets_loop base exchange_rates rest total_value)%cmd
  end.

(** [show_portfolio_command(args, state)]. *)
Definition show_portfolio_command (args : Args) (state : CLIState)
  (env : Env) : list event :=
  trace (try_except
    (let base :=
       match arg_base args with Some b => b | None => ArgStr "USD" end in
     user <- match current_user state with
             | None => print LoginFirst >> return_
             | Some user => ret user
             end ;;
     let portfolios := load_portfolios env in
     portfolio_data <-
       match find_portfolio_by_user_id portfolios (user_id user) with
       | None => print PortfolioNotFound >> return_
       | Some data => ret data
       end ;;
     let portfolio := from_dict portfolio_data in
     rates <- match load_rates env with
              | Ok rates => ret rates
              | Raise (ApiRequestError msg) =>
                  print (Warning (ApiRequestError msg)) >>
                  print UsingBaseRates >>
                  ret base_rates
              | Raise e => lift (Raise e)
              end ;;
     match wallets portfolio with
     | [] => print PortfolioEmpty >> return_
     | _ => ret tt
     end >>
     print (PortfolioHeader (username user) (fstr base)) >>
     exchange_rates <- lift (build_exchange_rates rates []) ;;
     total_value <-
       wallets_loop base exchange_rates (wallets portfolio) 0%float ;;
     print Separator >>
     print (Total total_value (fstr base)))%cmd
    (fun e => print (ShowError e))).

(** The replacement loop of [buy_command] and [sell_command]:
    [for i, p in enumerate(portfolios):
       if p['user_id'] == uid: portfolios[i] = portfolio_data; break]. *)
Fixpoint replace_portfolio (portfolios : list Portfolio) (uid : Z)
  (portfolio_data : Portfolio) : list Portfolio :=
  match portfolios with
  | [] => []
  | p :: rest =>
      if (owner p =? uid)%Z then portfolio_data :: rest
      else p :: replace_portfolio rest uid portfolio_data
  end.

Section Trading.

(** Python's [float(s)] on a string: the number read, or [None] where
    it raises [ValueError]. *)
Variable float_of_str : string -> option float.

(** [float(amount_str)]: [float(True)] is [1.0]. *)
Definition float_of_arg (a : arg) : option float :=
  match a with
  | ArgTrue => Some 1%float
  | ArgStr s => float_of_str s
  end.

(** The handlers that close [buy_command] and [sell_command]. *)
Definition trade_handler (other : exn -> line) (e : exn) : cmd unit :=
  match e with
  | CurrencyNotFoundError _ =>
      (print (ExnMessage e) >> print CheckCurrencyCode)%cmd
  | ValueError _ => print (ValidationError e)
  | _ => print (other e)
  end.

(** [buy_command(args, state)]. *)
Definition buy_command (args : Args) (state : CLIState) (env : Env)
  : list event :=
  trace (try_except
    (cur <- match arg_currency args, arg_amount args with
            | Some currency, Some amount_str =>
                if falsy (Some currency) || falsy (Some amount_str)
                then print NeedCurrencyAmount >> return_
                else ret (currency, amount_str)
            | _, _ => print NeedCurrencyAmount >> return_
            end ;;
     let (currency, amount_str) := cur : arg * arg in
     currency_obj <- lift (code <- as_str currency ;;
                           get_currency code)%result ;;
     amount <- match float_of_arg amount_str with
               | Some amount => ret amount
               | None => print AmountNotNumber >> return_
               end ;;
     user <- match current_user state with
             | None => print LoginFirst >> return_
             | Some user => ret user
             end ;;
     currency <- lift (code <- as_str currency ;;
                       Ok (strip (upper code)))%result ;;
     (if (amount <=? 0)%float
      then print AmountNotPositive >> return_ else ret tt) >>
     let portfolios := load_portfolios env in
     portfolio_data <-
       match find_portfolio_by_user_id portfolios (user_id user) with
       | None => print PortfolioNotFound >> return_
       | Some data => ret data
       end ;;
     let portfolio := from_dict portfolio_data in
     let (portfolio, wallet) := get_or_create_wallet portfolio currency in
     rates <- lift (load_rates env) ;;
     exchange_rates <- lift (build_exchange_rates rates []) ;;
     let rate_key := (currency ++ "_USD")%string in
     let rate := match dict_get rate_key exchange_rates with
                 | Some r => r
                 | None => 0%float
                 end in
     let estimated_cost :=
       if (0 <? rate)%float then (amount * rate)%float else 0%float in
     let old_balance := balance wallet in
     wallet <- lift (deposit wallet amount) ;;
     let portfolio := set_wallet portfolio currency wallet in
     let portfolio_data := to_dict portfolio in
     let portfolios :=
       replace_portfolio portfolios (user_id user) portfolio_data in
     save_portfolios portfolios >>
     (if (0 <? rate)%float
      then print (BuyDoneAtRate amount currency rate) >>
           print (EstimatedCost estimated_cost)
      else print (BuyDone amount currency)) >>
     print PortfolioChanges >>
     print (BalanceChange currency old_balance (balance wallet)))%cmd
    (trade_handler BuyError)).

(** [sell_command(args, state)]. *)
Definition sell_command (args : Args) (state : CLIState) (env : Env)
  : list event :=
  trace (try_except
    (cur <- match arg_currency args, arg_amount args with
            | Some currency, Some amount_str =>
                if falsy (Some currency) || falsy (Some amount_str)
                then print NeedCurrencyAmount >> return_
                else ret (currency, amount_str)
            | _, _ => print NeedCurrencyAmount >> return_
            end ;;
     let (currency, amount_str) := cur : arg * arg in
     currency_obj <- lift (code <- as_str currency ;;
                           get_currency code)%result ;;
     amount <- match float_of_arg amount_str with
               | Some amount => ret amount
               | None => print AmountNotNumber >> return_
               end ;;
     user <- match current_user state with
             | None => print LoginFirst >> return_
             | Some user => ret user
             end ;;
     currency <- lift (code <- as_str currency ;;
                       Ok (strip (upper code)))%result ;;
     (if (amount <=? 0)%float
      then print AmountNotPositive >> return_ else ret tt) >>
     let portfolios := load_portfolios env in
     portfolio_data <-
       match find_portfolio_by_user_id portfolios (user_id user) with
       | None => print PortfolioNotFound >> return_
       | Some data => ret data
       end ;;
     let portfolio := from_dict portfolio_data in
     wallet <- match get_wallet portfolio currency with
               | None => print (NoWallet currency) >> return_
               | Some wallet => ret wallet
               end ;;
     rates <- lift (load_rates env) ;;
     exchange_rates <- lift (build_exchange_rates rates []) ;;
     let rate_key := (currency ++ "_USD")%string in
     let rate := match dict_get rate_key exchange_rates with
                 | Some r => r
                 | None => 0%float
                 end in
     let estimated_revenue :=
       if (0 <? rate)%float then (amount * rate)%float else 0%float in
     let old_balance := balance wallet in
     wallet <- match withdraw wallet amount with
               | Ok wallet => ret wallet
               | Raise (InsufficientFundsError c a r) =>
                   print (ExnMessage (InsufficientFundsError c a r)) >>
                   return_
               | Raise e => lift (Raise e)
               end ;;
     let portfolio := set_wallet portfolio currency wallet in
     let portfolio_data := to_dict portfolio in
     let portfolios :=
       replace_portfolio portfolios (user_id user) portfolio_data in
     save_portfolios portfolios >>
     (if (0 <? rate)%float
      then print (SellDoneAtRate amount currency rate) >>
           print (EstimatedRevenue estimated_revenue)
      else print (SellDone amount currency)) >>
     print PortfolioChanges >>
     print (BalanceChange currency old_balance (balance wallet)))%cmd
    (trade_handler SellError)).

End Trading.

(** [k not in ['source', 'last_refresh']]. *)
Definition not_metadata (k : string) : bool :=
  negb (in_list k metadata_keys).

(** The body of [get_rate_command] once the rates are loaded: the direct
    rate, the reverse rate, the rate through USD, or the report that
    there is none. *)
Definition find_rate (rates : rates_table)
  (from_currency to_currency : string) : cmd unit :=
  let rate_key := (from_currency ++ "_" ++ to_currency)%string in
  if dict_in rate_key rates && not_metadata rate_key then
    (rate_data <- lift (dict_item rate_key rates) ;;
     rate <- lift (item_rate rate_data) ;;
     updated_at <- lift (item_updated_at rate_data) ;;
     print (RateLine from_currency to_currency rate (Stored updated_at)) >>
     (if negb (rate =? 0)%float then
        let reverse_rate := (1 / rate)%float in
        print (ReverseRateLine to_currency from_currency reverse_rate)
      else ret tt) >>
     return_)%cmd
  else
  let reverse_rate_key := (to_currency ++ "_" ++ from_currency)%string in
  if dict_in reverse_rate_key rates && not_metadata reverse_rate_key then
    (rate_data <- lift (dict_item reverse_rate_key rates) ;;
     reverse_rate <- lift (item_rate rate_data) ;;
     (if negb (reverse_rate =? 0)%float then
        let rate := (1 / reverse_rate)%float in
        updated_at <- lift (item_updated_at rate_data) ;;
        print (RateLine from_currency to_currency rate
                 (ComputedStored updated_at)) >>
        print (ReverseRateLine to_currency from_currency reverse_rate)
      else ret tt) >>
     return_)%cmd
  else
    ((if negb (String.eqb from_currency "USD")
         && negb (String.eqb to_currency "USD") then
        let usd_to_target_key := ("USD_" ++ to_currency)%string in
        let source_to_usd_key := (from_currency ++ "_USD")%string in
        if dict_in usd_to_target_key rates
           && dict_in source_to_usd_key rates then
          usd_to_target <-
            lift (v <- dict_item usd_to_target_key rates ;;
                  item_rate v)%result ;;
          source_to_usd <-
            lift (v <- dict_item source_to_usd_key rates ;;
                  item_rate v)%result ;;
          if negb (usd_to_target =? 0)%float
             && negb (source_to_usd =? 0)%float then
            let calculated_rate := (source_to_usd * usd_to_target)%float in
            print (RateLine from_currency to_currency calculated_rate
                     Computed) >>
            let reverse_rate :=
              if negb (calculated_rate =? 0)%float
              then (1 / calculated_rate)%float else 0%float in
            print (ReverseRateLine to_currency from_currency reverse_rate) >>
            return_
          else ret tt
        else ret tt
      else ret tt) >>
     print (RateUnavailable from_currency to_currency) >>
     print (AvailableRates (filter not_metadata (dict_keys rates))))%cmd.

(** [get_rate_command(args, state)]. *)
Definition get_rate_command (args : Args) (state : CLIState) (env : Env)
  : list event :=
  trace (try_except
    (cur <- (if falsy (arg_from args) || falsy (arg_to args)
             then print NeedFromTo >> return_
             else match arg_from args, arg_to args with
                  | Some from_currency, Some to_currency =>
                      ret (from_currency, to_currency)
                  | _, _ => return_
                  end) ;;
     let (from_currency, to_currency) := cur : arg * arg in
     from_currency_obj <- lift (code <- as_str from_currency ;;
                                get_currency code)%result ;;
     to_currency_obj <- lift (code <- as_str to_currency ;;
                              get_currency code)%result ;;
     from_currency <- lift (code <- as_str from_currency ;;
                            Ok (strip (upper code)))%result ;;
     to_currency <- lift (code <- as_str to_currency ;;
                          Ok (strip (upper code)))%result ;;
     (if is_empty from_currency || is_empty to_currency
      then print EmptyCodes >> return_ else ret tt) >>
     rates <- lift (load_rates env) ;;
     find_rate rates from_currency to_currency)%cmd
    (fun e =>
       match e with
       | CurrencyNotFoundError _ =>
           (print (ExnMessage e) >>
            print UseHelpGetRate >>
            print (AvailableCurrencies (dict_keys get_all_currencies)))%cmd
       | _ => print (RateError e)
       end)).

End Interface.

(** ** Notions the specification speaks of *)

Module Spec.

Import Currencies Models Interface.

(** Section 4.1, validation rules: code length in 2..5, code upper case
    with no space, name not empty once trimmed. *)
Definition valid_code (code : string) : bool :=
  (2 <=? len code)%nat && (len code <=? 5)%nat
  && isupper code && negb (contains_char " "%char code).

Definition valid_name (name : string) : bool :=
  negb (is_empty (strip name)).

(** InvalidCurrency is the [ValueError] the validators raise. *)
Definition InvalidCurrency {A} (r : result A) : Prop :=
  exists msg, r = Raise (ValueError msg).

(** Neither a fiat nor a crypto currency can be constructed with this name
    and code. *)
Definition construction_fails (name code : string) : Prop :=
  (forall issuing_country,
      InvalidCurrency (FiatCurrency name code issuing_country))
  /\ (forall algorithm market_cap,
        InvalidCurrency (CryptoCurrency name code algorithm market_cap)).

(** Section 4.2: the rate a rate query reports, read off its first rate
    line. *)
Fixpoint resolved_rate (t : list event) : option float :=
  match t with
  | [] => None
  | Out (RateLine _ _ r _) :: _ => Some r
  | _ :: t' => resolved_rate t'
  end.

(** Section 4.2: the provenance of a rate, as its line words it. *)
Inductive provenance : Type := direct | inverted_reverse | bridged.

Definition provenance_of (n : rate_note) : provenance :=
  match n with
  | Stored _ => direct
  | ComputedStored _ => inverted_reverse
  | Computed => bridged
  end.

(** Section 4.3: what a wallet contributes to the total in [base], given
    the table of rates: its balance if it is held in [base], its balance
    times the rate stored for its pair if there is one, nothing
    otherwise. *)
Definition contributed_value (base : string) (exchange_rates : dict float)
  (item : string * Wallet) : option float :=
  let (code, wallet) := item in
  if String.eqb code base then Some (balance wallet)
  else match dict_get (code ++ "_" ++ base) exchange_rates with
       | Some rate => Some (balance wallet * rate)%float
       | None => None
       end.

(** Section 4.3: the row of the breakdown for a wallet. *)
Definition breakdown_row (base : string) (exchange_rates : dict float)
  (item : string * Wallet) : event :=
  let (code, wallet) := item in
  match contributed_value base exchange_rates item with
  | Some value =>
      if String.eqb code base
      then Out (WalletBase code (balance wallet) value base)
      else Out (WalletValue code (balance wallet) value base)
  | None => Out (WalletRateNotFound code (balance wallet))
  end.

(** Section 4.3: the total, the contributed values that were resolved
    summed in portfolio order. *)
Definition total_of (values : list (option float)) : float :=
  fold_left (fun total v =>
               match v with Some x => (total + x)%float | None => total end)
    values 0%float.

(** The portfolios a command wrote, oldest first, and the portfolios file
    once the command has run. *)
Fixpoint saved (t : list event) : list (list Portfolio) :=
  match t with
  | [] => []
  | SavePortfolios ps :: t' => ps :: saved t'
  | Out _ :: t' => saved t'
  end.

Definition store_after (store : list Portfolio) (t : list event)
  : list Portfolio :=
  last (saved t) store.




(** A trade is reported done by the line that shows the old and the new
    balance. *)
Definition reports_trade (t : list event) : bool :=
  existsb (fun e => match e with
                    | Out (BalanceChange _ _ _) => true
                    | _ => false
                    end) t.

(** The base currency of a valuation: the argument [--base], or USD. *)
Definition base_of (args : Args) (base : string) : Prop :=
  arg_base args = Some (ArgStr base)
  \/ (arg_base args = None /\ base = "USD").

(** Section 4.4 and 7: the amount a trade command reads, [None] when
    [--amount] is missing or is not a number. *)
Definition amount_read (float_of_str : string -> option float)
  (args : Args) : option float :=
  match arg_amount args with
  | Some a => float_of_arg float_of_str a
  | None => None
  end.




(** The loaded rates without the entries [source] and [last_refresh]. *)
Definition strip_metadata (rates : rates_table) : rates_table :=
  filter (fun item => not_metadata (fst item)) rates.

Definition with_rates (env : Env) (rates : rates_table) : Env :=
  {| portfolios_file := portfolios_file env; rates_file := Ok rates |}.

(** The arguments of the commands that take a pair or a trade. *)
Definition rate_args (from_currency to_currency : string) : Args :=
  {| arg_base := None; arg_currency := None; arg_amount := None;
     arg_from := Some (ArgStr from_currency);
     arg_to := Some (ArgStr to_currency) |}.

Definition trade_args (currency amount : string) : Args :=
  {| arg_base := None; arg_currency := Some (ArgStr currency);
     arg_amount := Some (ArgStr amount);
     arg_from := None; arg_to := None |}.

Definition base_args (base : string) : Args :=
  {| arg_base := Some (ArgStr base); arg_currency := None;
     arg_amount := None; arg_from := None; arg_to := None |}.

End Spec.

(** ** Sample data: the examples of section 8 of the specification *)

Module Samples.

Import Currencies Models Interface Spec.

Definition alice : User := {| user_id := 1; username := "alice" |}.

Definition logged_in : CLIState := {| current_user := Some alice |}.

Definition logged_out : CLIState := {| current_user := None |}.

Definition quote (r : float) : rates_value :=
  Quote {| rate := r; updated_at := Some "2025-10-09T10:30:00" |}.

Definition holding (code : string) (amount : float) : string * Wallet :=
  (code, {| currency_code := code; balance := amount |}).

Definition portfolio_of (items : dict Wallet) : Portfolio :=
  {| owner := 1; wallets := items |}.

Definition sample_env (items : dict Wallet) (rates : rates_table) : Env :=
  {| portfolios_file := [portfolio_of items]; rates_file := Ok rates |}.

(** [{"EUR_USD": 1.08}]. *)
Definition rates_eur_usd : rates_table := [("EUR_USD", quote 1.08)].

(** [{"USD_RUB": 90, "EUR_USD": 1.08}]. *)
Definition rates_usd_bridge : rates_table :=
  [("USD_RUB", quote 90); ("EUR_USD", quote 1.08)].

(** [{"BTC_USD": 50000}], as the parser writes it, with its metadata. *)
Definition rates_btc_usd : rates_table :=
  [("BTC_USD", quote 50000); ("source", Meta "ParserService");
   ("last_refresh", Meta "2025-10-09T10:30:00")].

(** The portfolio [{USD: 100, BTC: 0.01}]. *)
Definition usd_and_btc : dict Wallet :=
  [holding "USD" 100; holding "BTC" 0.01].

(** [float] on the amounts the examples type. *)
Definition sample_float (s : string) : option float :=
  if String.eqb s "30" then Some 30%float
  else if String.eqb s "100" then Some 100%float
  else if String.eqb s "-1" then Some (-1)%float
  else if String.eqb s "0.05" then Some 0.05%float
  else None.

End Samples.

(** ** [cli/interface.py]: the argument parser *)

Module Arguments.

Import Interface.

(** [s.startswith(prefix)]. *)
Fixpoint startswith (s prefix : string) {struct prefix} : bool :=
  match prefix with
  | EmptyString => true
  | String c prefix' =>
      match s with
      | EmptyString => false
      | String d s' => Ascii.eqb c d && startswith s' prefix'
      end
  end.

(** [s[n:]]. *)
Fixpoint slice_from (n : nat) (s : string) : string :=
  match n, s with
  | S n', String _ s' => slice_from n' s'
  | _, _ => s
  end.

(** The dictionary [parse_args] builds: under each key a string, [True],
    or, written [None] here, Python's [None]. *)
Definition parsed_args : Type := dict (option arg).

(** The [while] loop of [parse_args], from the word at index [i] on. *)
Fixpoint parse_loop (args : list string) (parsed : parsed_args) : parsed_args :=
  match args with
  | [] => parsed
  | arg :: rest =>
      if startswith arg "--" then
        let key := slice_from 2 arg in
        match rest with
        | next :: rest' =>
            if negb (startswith next "--")
            then parse_loop rest' (dict_set key (Some (ArgStr next)) parsed)
            else parse_loop rest (dict_set key (Some ArgTrue) parsed)
        | [] => parse_loop rest (dict_set key (Some ArgTrue) parsed)
        end
      else parse_loop rest parsed
  end.

(** [parse_args(args)]. *)
Definition parse_args (args : list string) : parsed_args :=
  parse_loop (tl args)
    [("command", match args with
                 | command :: _ => Some (ArgStr command)
                 | [] => None
                 end)].

(** [args.get(key)]. *)
Definition args_get (key : string) (args : parsed_args) : option arg :=
  match dict_get key args with
  | Some value => value
  | None => None
  end.

(** The arguments the four commands of [Interface] read. *)
Definition command_args (args : parsed_args) : Args :=
  {| arg_base := args_get "base" args;
     arg_currency := args_get "currency" args;
     arg_amount := args_get "amount" args;
     arg_from := args_get "from" args;
     arg_to := args_get "to" args |}.

(** A command line written with options: [--key value], or [--key]
    alone. *)
Definition option_words (item : string * option string) : list string :=
  match snd item with
  | Some value => ["--" ++ fst item; value]
  | None => ["--" ++ fst item]
  end.

Definition option_value (item : string * option string) : option arg :=
  match snd item with
  | Some value => Some (ArgStr value)
  | None => Some ArgTrue
  end.

(** A value that can follow an option: it does not look like one. *)
Definition plain_value (item : string * option string) : bool :=
  match snd item with
  | Some value => negb (startswith value "--")
  | None => true
  end.

End Arguments.

(** ** [cli/interface.py]: users and registration *)

Module Accounts.

Import Models Interface Arguments.

(** An entry of [users.json]: the commands read its keys [user_id] and
    [username]; the other keys are written by [User.to_dict]. *)
Record user_data : Type := {
  ud_user_id : Z;
  ud_username : string;
  ud_rest : dict string
}.

(** [get_next_user_id(users)]. *)
Definition get_next_user_id (users : list user_data) : Z :=
  match users with
  | [] => 1
  | user :: rest =>
      (fold_left Z.max (map ud_user_id rest) (ud_user_id user) + 1)%Z
  end.

(** [find_user_by_username(users, username)]. *)
Fixpoint find_user_by_username (users : list user_data) (username : arg)
  : option user_data :=
  match users with
  | [] => None
  | user :: rest =>
      if str_eq (ud_username user) username then Some user
      else find_user_by_username rest username
  end.

(** The lines [register_command] prints. *)
Inductive account_line : Type :=
| NeedUsernamePassword       (* необходимо указать --username и --password *)
| UsernameTaken (username : string)
| PasswordTooShort
| Registered (username : string) (user_id : Z)
| RegisterError (e : exn).

(** What [register_command] does to the outside. *)
Inductive effect : Type :=
| Say (l : account_line)
| SaveUsers (users : list user_data)
| SaveAllPortfolios (portfolios : list Portfolio).

(** [len(password)]: [True] has no length. *)
Definition arg_len (a : arg) : result nat :=
  match a with
  | ArgStr s => Ok (len s)
  | ArgTrue => Raise (TypeError "object of type 'bool' has no len()")
  end.

(** Modelled from the spec: [Portfolio(user_id).to_dict()], the empty
    portfolio of a new user. *)
Definition new_portfolio (user_id : Z) : Portfolio :=
  {| owner := user_id; wallets := [] |}.

Section Registration.

(** [User(user_id, username, password).to_dict()]: class [User] of
    [core/models.py] is not among the sources; the entry it produces, or
    the exception it raises, is a parameter. *)
Variable new_user : Z -> arg -> arg -> result user_data.

(** [register_command(args, state)], on the users and the portfolios
    read from the files. *)
Definition register_command (args : parsed_args) (users : list user_data)
  (portfolios : list Portfolio) : list effect :=
  let username := args_get "username" args in
  let password := args_get "password" args in
  match username, password with
  | Some username, Some password =>
      if falsy (Some username) || falsy (Some password)
      then [Say NeedUsernamePassword]
      else
        match find_user_by_username users username with
        | Some _ => [Say (UsernameTaken (fstr username))]
        | None =>
            match arg_len password with
            | Raise e => [Say (RegisterError e)]
            | Ok n =>
                if (n <? 4)%nat then [Say PasswordTooShort]
                else
                  let user_id := get_next_user_id users in
                  match new_user user_id username password with
                  | Raise e => [Say (RegisterError e)]
                  | Ok user =>
                      [SaveUsers (users ++ [user])%list;
                       SaveAllPortfolios
                         (portfolios ++ [new_portfolio user_id])%list;
                       Say (Registered (fstr username) user_id)]
                  end
            end
        end
  | _, _ => [Say NeedUsernamePassword]
  end.

End Registration.


End Accounts.

(** ** [core/currencies.py]: the registry as a whole *)

Module Registry.

Import Currencies.






(** The nine currencies of [_initialize_currencies] stored in turn, under
    their codes, in a registry. *)
Definition with_catalog (reg : dict Currency) : dict Currency :=
  fold_left (fun acc currency => dict_set (code currency) currency acc)
    (map snd _currency_registry) reg.

End Registry.

(** ** Sessions: a command run on the files the previous one left *)

Module Session.

Import Models Interface Spec.

(** The files once a command with trace [t] has run on [env]. *)
Definition env_after (env : Env) (t : list event) : Env :=
  {| portfolios_file := store_after (portfolios_file env) t;
     rates_file := rates_file env |}.

(** The rate a trade is estimated at: the one stored for
    [CURRENCY_USD], or 0. *)
Definition estimate_rate (exchange_rates : dict float) (currency : string)
  : float :=
  match dict_get (currency ++ "_USD") exchange_rates with
  | Some r => r
  | None => 0%float
  end.

(** The rate of a pair entry. *)
Definition pair_rate (v : rates_value) : float :=
  match v with
  | Quote d => rate d
  | Meta _ => 0%float
  end.

(** A pair entry that is not an object: its key is not a metadata key and
    its value is a string. *)
Definition malformed (rates : rates_table) : Prop :=
  exists k s, In (k, Meta s) rates /\ not_metadata k = true.

(** The normalised form of a code typed by the user. *)
Definition normal (code : string) : string := strip (upper code).

(** The balance held in [currency], 0 when there is no wallet. *)
Definition held (portfolio : Portfolio) (currency : string) : float :=
  match get_wallet portfolio currency with
  | Some wallet => balance wallet
  | None => 0%float
  end.

(** Whether [uid] is the identifier of somebody other than the user of
    the session. *)
Definition other_user (state : CLIState) (uid : Z) : bool :=
  match current_user state with
  | Some user => negb (user_id user =? uid)%Z
  | None => true
  end.

(** The rates file holds no usable table: it does not load, or one of its
    pair entries is malformed. *)
Definition no_rates_table (env : Env) : Prop :=
  (exists e, load_rates env = Raise e)
  \/ (exists rates, load_rates env = Ok rates /\ malformed rates).

(** A block of statements that does not write the portfolios file. *)
Definition silent {A} (c : cmd A) : Prop := saved (trace c) = [].

End Session.

(** ** Sample data for users and sessions *)

Module MoreSamples.

Import Models Interface Arguments Accounts Samples.

(** An entry as [User.to_dict] could write it. *)
Definition sample_new_user (user_id : Z) (username password : arg)
  : result user_data :=
  Ok {| ud_user_id := user_id; ud_username := fstr username;
        ud_rest := [("hashed_password", fstr password)] |}.

Definition alice_data : user_data :=
  {| ud_user_id := 1; ud_username := "alice";
     ud_rest := [("hashed_password", "1234")] |}.

Definition bob_data : user_data :=
  {| ud_user_id := 7; ud_username := "bob";
     ud_rest := [("hashed_password", "abcd")] |}.

(** The portfolio of another user, next to the one of [alice]. *)
Definition portfolio_of_bob : Portfolio :=
  {| owner := 7; wallets := [holding "EUR" 5] |}.

End MoreSamples.

(** * Properties *)

(** ** Strings and dictionaries *)

Module PyFacts.

Lemma dict_in_get {V} (k : string) (d : dict V) :
  dict_in k d = true <-> exists v, dict_get k d = Some v.
Proof.
  unfold dict_in. destruct (dict_get k d) as [v|].
  - split; [eauto | reflexivity].
  - split; [discriminate | intros [v Hv]; discriminate].
Qed.

Lemma dict_get_set {V} (k k' : string) (v : V) (d : dict V) :
  dict_get k (dict_set k' v d)
  = if String.eqb k k' then Some v else dict_get k d.
Proof.
  induction d as [|[k0 v0] d IH]; simpl.
  - reflexivity.
  - destruct (String.eqb_spec k' k0) as [->|Hk0]; simpl.
    + destruct (String.eqb k k0); reflexivity.
    + rewrite IH. destruct (String.eqb_spec k k0) as [->|Hk].
      * destruct (String.eqb_spec k0 k'); congruence.
      * reflexivity.
Qed.

Lemma dict_get_filter {V} (p : string -> bool) (k : string) (d : dict V) :
  p k = true ->
  dict_get k (filter (fun item => p (fst item)) d) = dict_get k d.
Proof.
  intros Hk. induction d as [|[k0 v0] d IH]; simpl.
  - reflexivity.
  - destruct (p k0) eqn:Hp0; simpl.
    + rewrite IH. reflexivity.
    + destruct (String.eqb_spec k k0) as [->|_]; congruence.
Qed.

Lemma last_char_append (a b : string) (d : ascii) :
  last_char (a ++ b) d = last_char b (last_char a d).
Proof.
  revert d. induction a as [|c a IH]; intros d; simpl; auto.
Qed.

End PyFacts.

(** ** Binary64 arithmetic *)

Module FloatFacts.

Lemma digits2_size p : digits2_pos p = Pos.size p.
Proof. induction p; simpl; congruence. Qed.

(** Rounding keeps the sign it is given. *)
Lemma binary_round_aux_sign sx mx ex lx :
  SFltb (binary_round_aux prec emax sx mx ex lx) (S754_zero false) = sx
  \/ SFltb (binary_round_aux prec emax sx mx ex lx) (S754_zero false)
     = false.
Proof.
  unfold binary_round_aux.
  destruct (shr_fexp prec emax mx ex lx) as [mrs' e'].
  destruct (shr_fexp prec emax _ e' loc_Exact) as [mrs'' e''].
  destruct (shr_m mrs''); [right; reflexivity | | right; reflexivity].
  destruct (Z.leb e'' (emax - prec)); destruct sx; auto.
Qed.

Lemma binary_normalize_nonneg m e :
  (0 <= m)%Z ->
  SFltb (binary_normalize prec emax m e false) (S754_zero false) = false.
Proof.
  intros Hm. destruct m as [|p|p]; [reflexivity | | lia].
  unfold binary_normalize, binary_round.
  destruct (shl_align _ _ _) as [mz ez].
  destruct (binary_round_aux_sign false (Zpos mz) ez loc_Exact); assumption.
Qed.

Lemma shl_align_fst m e e' :
  (e' <= e)%Z ->
  Zpos (fst (shl_align m e e')) = (Zpos m * 2 ^ (e - e'))%Z.
Proof.
  intros He. unfold shl_align.
  destruct (e' - e)%Z as [|d|d] eqn:Hd; try lia.
  - replace (e - e')%Z with 0%Z by lia. cbn [fst]. lia.
  - cbn [fst]. change (Pos.iter xO m d) with (shift_pos d m).
    rewrite shift_pos_correct. replace (e - e')%Z with (Zpos d) by lia.
    rewrite Z.pow_pos_fold. lia.
Qed.

Lemma pos_digits_bounds m :
  (2 ^ (Zpos (digits2_pos m) - 1) <= Zpos m < 2 ^ Zpos (digits2_pos m))%Z.
Proof.
  rewrite digits2_size.
  pose proof (Pos.size_gt m) as Hgt. pose proof (Pos.size_le m) as Hle.
  assert (H2 : Zpos (2 ^ Pos.size m) = (2 ^ Zpos (Pos.size m))%Z)
    by (rewrite Pos2Z.inj_pow; reflexivity).
  split.
  - assert (2 ^ Zpos (Pos.size m) = 2 * 2 ^ (Zpos (Pos.size m) - 1))%Z.
    { rewrite <- Z.pow_succ_r by lia. f_equal. lia. }
    lia.
  - lia.
Qed.

Lemma canonical_exponent m e :
  bounded prec emax m e = true ->
  (e = Z.max (Zpos (digits2_pos m) + e - prec) (3 - emax - prec))%Z.
Proof.
  unfold bounded, canonical_mantissa, fexp, SpecFloat.emin.
  intros H. apply andb_prop in H. destruct H as [H _].
  apply Z.eqb_eq in H. lia.
Qed.

(** Of two valid positive finite floats, the one with the larger exponent
    is the larger. *)
Lemma aligned_mantissa_le mB eB mA eA :
  bounded prec emax mB eB = true ->
  bounded prec emax mA eA = true ->
  (eA < eB)%Z ->
  (Zpos mA <= Zpos mB * 2 ^ (eB - eA))%Z.
Proof.
  intros HB HA Hlt.
  apply canonical_exponent in HB. apply canonical_exponent in HA.
  pose proof (pos_digits_bounds mB) as [HB1 _].
  pose proof (pos_digits_bounds mA) as [_ HA2].
  assert (Hd : (Zpos (digits2_pos mA) <= Zpos (digits2_pos mB))%Z) by lia.
  assert (H1 : (2 ^ Zpos (digits2_pos mA) <= 2 ^ Zpos (digits2_pos mB))%Z)
    by (apply Z.pow_le_mono_r; lia).
  assert (H2 : (2 ^ Zpos (digits2_pos mB)
                = 2 * 2 ^ (Zpos (digits2_pos mB) - 1))%Z).
  { rewrite <- Z.pow_succ_r by lia. f_equal. lia. }
  assert (H3 : (2 ^ 1 <= 2 ^ (eB - eA))%Z) by (apply Z.pow_le_mono_r; lia).
  change (2 ^ 1)%Z with 2%Z in H3.
  nia.
Qed.

Lemma SFsub_nonneg B A :
  valid_binary B = true -> valid_binary A = true ->
  SFltb B A = false ->
  SFleb A (S754_zero false) = false ->
  SFltb (SFsub prec emax B A) (S754_zero false) = false.
Proof.
  intros VB VA Hlt Hle.
  destruct A as [sa|sa| |sa mA eA]; destruct B as [sb|sb| |sb mB eB];
    try destruct sa; try destruct sb; try discriminate; try reflexivity.
  cbn [valid_binary] in VA, VB. unfold SFltb, SFcompare in Hlt.
  unfold SFsub. apply binary_normalize_nonneg. cbn [cond_Zopp].
  change (IntDef.Z.min eB eA) with (Z.min eB eA).
  change (PosDef.Pos.compare_cont Eq mB mA) with (Pos.compare mB mA) in Hlt.
  change (IntDef.Z.compare eB eA) with (Z.compare eB eA) in Hlt.
  destruct (Z.compare_spec eB eA) as [Hc|Hc|Hc].
  - subst eB. rewrite Z.min_id, !shl_align_fst, Z.sub_diag by lia.
    destruct (Pos.compare_spec mB mA) as [Hm|Hm|Hm]; try discriminate; lia.
  - discriminate.
  - rewrite Z.min_r, !shl_align_fst, Z.sub_diag by lia.
    pose proof (aligned_mantissa_le mB eB mA eA VB VA Hc). lia.
Qed.


(** [balance - amount] is not negative when [amount] is positive and not
    above [balance]. *)
Lemma sub_not_negative (balance amount : float) :
  (amount <=? 0)%float = false ->
  (balance <? amount)%float = false ->
  (balance - amount <? 0)%float = false.
Proof.
  rewrite leb_spec, !ltb_spec, sub_spec. intros Hle Hlt.
  apply SFsub_nonneg; auto using Prim2SF_valid.
Qed.


End FloatFacts.

(** ** The currency registry *)

Module CurrenciesSpec.

Import Currencies Spec.

Lemma registry_value :
  _currency_registry =
  [ ("USD", Fiat "US Dollar" "USD" "United States");
    ("EUR", Fiat "Euro" "EUR" "Eurozone");
    ("RUB", Fiat "Russian Ruble" "RUB" "Russia");
    ("GBP", Fiat "British Pound" "GBP" "United Kingdom");
    ("JPY", Fiat "Japanese Yen" "JPY" "Japan");
    ("BTC", Crypto "Bitcoin" "BTC" "SHA-256" 1.12e12);
    ("ETH", Crypto "Ethereum" "ETH" "Ethash" 3.5e11);
    ("LTC", Crypto "Litecoin" "LTC" "Scrypt" 5.8e9);
    ("ADA", Crypto "Cardano" "ADA" "Ouroboros" 1.2e10) ].
Proof. reflexivity. Qed.

(** The lookup is the dictionary lookup of the normalised code. *)
Lemma get_currency_eq (code : string) :
  get_currency code =
  match dict_get (strip (upper code)) _currency_registry with
  | Some currency => Ok currency
  | None => Raise (CurrencyNotFoundError (strip (upper code)))
  end.
Proof. unfold get_currency. rewrite registry_value. reflexivity. Qed.

Ltac registry_cases k H :=
  rewrite registry_value in H; cbn [dict_get] in H;
  repeat match goal with
         | H' : context [String.eqb k ?s] |- _ =>
             destruct (String.eqb_spec k s) as [->|?]; cbn iota in H';
             [ injection H' as <- | ]
         end;
  try discriminate.


Lemma registry_code_shape (k : string) :
  dict_in k _currency_registry = true ->
  In k ["USD"; "EUR"; "RUB"; "GBP"; "JPY"; "BTC"; "ETH"; "LTC"; "ADA"].
Proof.
  intros H. apply PyFacts.dict_in_get in H. destruct H as [c H].
  registry_cases k H; simpl; tauto.
Qed.


(** The lookup at work: lower case and surrounding blanks are accepted,
    an unknown code is refused. *)
Example get_currency_btc :
  get_currency " btc " = Ok (Crypto "Bitcoin" "BTC" "SHA-256" 1.12e12)
  /\ get_currency "xyz" = Raise (CurrencyNotFoundError "XYZ").
Proof. split; reflexivity. Qed.

(** The constructor body either accepts, exactly when the rules of
    section 4.1 hold, or raises [ValueError]. *)
Lemma Currency_init_spec (name code : string) :
  if valid_code code && valid_name name
  then Currency_init name code = Ok tt
  else InvalidCurrency (Currency_init name code).
Proof.
  unfold valid_code, valid_name, Currency_init, _validate_code,
    _validate_name, InvalidCurrency.
  destruct ((2 <=? len code)%nat && (len code <=? 5)%nat);
    destruct (isupper code); destruct (contains_char " " code);
    destruct (is_empty (strip name)); cbn; eauto.
Qed.

Lemma constructors_reject (name code : string) :
  valid_code code && valid_name name = false ->
  construction_fails name code.
Proof.
  intros H. pose proof (Currency_init_spec name code) as Hi.
  rewrite H in Hi. destruct Hi as [msg Hi].
  unfold construction_fails, FiatCurrency, CryptoCurrency. rewrite Hi.
  split; intros; exists msg; reflexivity.
Qed.


(** Construction at work: a code may hold digits, but not only digits,
    nor a blank. *)
Example currency_codes :
  FiatCurrency "Tether" "USDT" "none" = Ok (Fiat "Tether" "USDT" "none")
  /\ CryptoCurrency "One inch" "1INCH" "ERC-20" 0
     = Ok (Crypto "One inch" "1INCH" "ERC-20" 0)
  /\ construction_fails "Digits" "123"
  /\ construction_fails "Too long" "BITCOIN"
  /\ construction_fails "Blank" "U D"
  /\ construction_fails "   " "USD".
Proof.
  repeat apply conj; try reflexivity;
    apply constructors_reject; reflexivity.
Qed.

Lemma digit_is_digit (n : Z) : is_digit (digit n) = true.
Proof.
  unfold is_digit, digit.
  pose proof (Z.mod_pos_bound n 10 eq_refl) as Hn.
  rewrite nat_ascii_embedding by lia.
  apply andb_true_intro. split; apply Nat.leb_le; lia.
Qed.

(** C9: a crypto currency is displayed as
    [[CRYPTO] CODE — Name (Algo: X, MCAP: Y)], where [Y] is the market
    capitalisation in the format [.2e] when it is strictly above [1e9] and
    in the format [,.2f] otherwise ([1e9] itself included); a fiat currency
    is displayed as [[FIAT] CODE — Name (Issuing: Region)].  For a finite
    non-zero value the format [.2e] is a digit, a point, two digits and a
    signed exponent, and the format [,.2f] is the grouped integer part, a
    point and two digits.  The registry is displayed accordingly. *)
Theorem get_display_info_format :
  (forall name code algorithm market_cap,
      exists Y,
        get_display_info (Crypto name code algorithm market_cap)
        = "[CRYPTO] " ++ code ++ " — " ++ name
            ++ " (Algo: " ++ algorithm ++ ", MCAP: " ++ Y ++ ")"
        /\ ((1e9 <? market_cap)%float = true -> Y = format_2e market_cap)
        /\ ((1e9 <? market_cap)%float = false ->
            Y = format_grouped_2f market_cap))
  /\ (forall name code issuing_country,
        get_display_info (Fiat name code issuing_country)
        = "[FIAT] " ++ code ++ " — " ++ name
            ++ " (Issuing: " ++ issuing_country ++ ")")
  /\ (forall x s m e,
        Prim2SF x = S754_finite s m e ->
        (exists d0 d1 d2 x10,
            format_2e x
            = sign_prefix s
                ++ String d0 (String "." (String d1 (String d2
                     ("e" ++ exponent x10))))
            /\ is_digit d0 && is_digit d1 && is_digit d2 = true)
        /\ (exists n d1 d2,
              format_grouped_2f x
              = sign_prefix s ++ grouped n
                  ++ String "." (String d1 (String d2 ""))
              /\ is_digit d1 && is_digit d2 = true))
  /\ map (fun item => get_display_info (snd item)) _currency_registry
     = [ "[FIAT] USD — US Dollar (Issuing: United States)";
         "[FIAT] EUR — Euro (Issuing: Eurozone)";
         "[FIAT] RUB — Russian Ruble (Issuing: Russia)";
         "[FIAT] GBP — British Pound (Issuing: United Kingdom)";
         "[FIAT] JPY — Japanese Yen (Issuing: Japan)";
         "[CRYPTO] BTC — Bitcoin (Algo: SHA-256, MCAP: 1.12e+12)";
         "[CRYPTO] ETH — Ethereum (Algo: Ethash, MCAP: 3.50e+11)";
         "[CRYPTO] LTC — Litecoin (Algo: Scrypt, MCAP: 5.80e+09)";
         "[CRYPTO] ADA — Cardano (Algo: Ouroboros, MCAP: 1.20e+10)" ]
  /\ mcap_display 1e9%float = "1,000,000,000.00"
  /\ mcap_display 0%float = "0.00".
Proof.
  split; [|split; [|split; [|split; [|split]]]].
  - intros name code algorithm market_cap.
    exists (mcap_display market_cap). unfold mcap_display.
    repeat apply conj; try reflexivity; intros H; rewrite H; reflexivity.
  - reflexivity.
  - intros x s m e Hx. split.
    + unfold format_2e. rewrite Hx.
      destruct (fraction m e) as [num den].
      destruct (scientific num den) as [d x10].
      exists (digit (d / 100)), (digit (d / 10)), (digit d), x10.
      rewrite !digit_is_digit. split; reflexivity.
    + unfold format_grouped_2f. rewrite Hx.
      destruct (fraction m e) as [num den].
      eexists _, (digit _), (digit _).
      rewrite !digit_is_digit. split; reflexivity.
  - vm_compute. reflexivity.
  - vm_compute. reflexivity.
  - vm_compute. reflexivity.
Qed.

End CurrenciesSpec.

(** ** Rate queries *)

Module RateSpec.

Import Currencies Models Interface Spec.
Import Samples PyFacts CurrenciesSpec.

Lemma dict_in_true {V} (k : string) (d : dict V) (v : V) :
  dict_get k d = Some v -> dict_in k d = true.
Proof. unfold dict_in. intros ->. reflexivity. Qed.

Lemma dict_in_false {V} (k : string) (d : dict V) :
  dict_get k d = None -> dict_in k d = false.
Proof. unfold dict_in. intros ->. reflexivity. Qed.

Lemma dict_item_ok {V} (k : string) (d : dict V) (v : V) :
  dict_get k d = Some v -> dict_item k d = Ok v.
Proof. unfold dict_item. intros ->. reflexivity. Qed.

(** The direct branch of [find_rate]. *)
Lemma find_rate_direct rates from_currency to_currency d t :
  dict_get (from_currency ++ "_" ++ to_currency) rates = Some (Quote d) ->
  updated_at d = Some t ->
  not_metadata (from_currency ++ "_" ++ to_currency) = true ->
  find_rate rates from_currency to_currency
  = (Out (RateLine from_currency to_currency (rate d) (Stored t))
       :: (if (rate d =? 0)%float then []
           else [Out (ReverseRateLine to_currency from_currency
                        (1 / rate d)%float)]),
     Return).
Proof.
  intros Hget Ht Hmeta. unfold find_rate.
  rewrite (dict_in_true _ _ _ Hget), Hmeta, (dict_item_ok _ _ _ Hget).
  cbn. rewrite Ht. cbn. destruct (rate d =? 0)%float; reflexivity.
Qed.

(** The reverse branch, with a rate that can be inverted. *)
Lemma find_rate_reverse rates from_currency to_currency d t :
  dict_get (from_currency ++ "_" ++ to_currency) rates = None ->
  dict_get (to_currency ++ "_" ++ from_currency) rates = Some (Quote d) ->
  not_metadata (to_currency ++ "_" ++ from_currency) = true ->
  (rate d =? 0)%float = false ->
  updated_at d = Some t ->
  find_rate rates from_currency to_currency
  = ([Out (RateLine from_currency to_currency (1 / rate d)%float
             (ComputedStored t));
      Out (ReverseRateLine to_currency from_currency (rate d))],
     Return).
Proof.
  intros Hdirect Hget Hmeta Hrate Ht. unfold find_rate.
  rewrite (dict_in_false _ _ Hdirect), (dict_in_true _ _ _ Hget), Hmeta,
    (dict_item_ok _ _ _ Hget).
  cbn. rewrite Hrate, Ht. reflexivity.
Qed.

(** The reverse branch, with a rate of zero: the command returns having
    printed nothing. *)
Lemma find_rate_reverse_zero rates from_currency to_currency d :
  dict_get (from_currency ++ "_" ++ to_currency) rates = None ->
  dict_get (to_currency ++ "_" ++ from_currency) rates = Some (Quote d) ->
  not_metadata (to_currency ++ "_" ++ from_currency) = true ->
  (rate d =? 0)%float = true ->
  find_rate rates from_currency to_currency = ([], Return).
Proof.
  intros Hdirect Hget Hmeta Hrate. unfold find_rate.
  rewrite (dict_in_false _ _ Hdirect), (dict_in_true _ _ _ Hget), Hmeta,
    (dict_item_ok _ _ _ Hget).
  cbn. rewrite Hrate. reflexivity.
Qed.

(** The branch through USD. *)
Lemma find_rate_bridged rates from_currency to_currency source target :
  dict_get (from_currency ++ "_" ++ to_currency) rates = None ->
  dict_get (to_currency ++ "_" ++ from_currency) rates = None ->
  from_currency <> "USD" -> to_currency <> "USD" ->
  dict_get (from_currency ++ "_USD") rates = Some (Quote source) ->
  dict_get ("USD_" ++ to_currency) rates = Some (Quote target) ->
  (rate source =? 0)%float = false ->
  (rate target =? 0)%float = false ->
  find_rate rates from_currency to_currency
  = (let calculated_rate := (rate source * rate target)%float in
     [Out (RateLine from_currency to_currency calculated_rate Computed);
      Out (ReverseRateLine to_currency from_currency
             (if (calculated_rate =? 0)%float then 0%float
              else (1 / calculated_rate)%float))],
     Return).
Proof.
  intros Hdirect Hreverse Hfrom Hto Hsource Htarget Hs Ht. unfold find_rate.
  rewrite (dict_in_false _ _ Hdirect), (dict_in_false _ _ Hreverse).
  apply String.eqb_neq in Hfrom, Hto. rewrite Hfrom, Hto.
  rewrite (dict_in_true _ _ _ Hsource), (dict_in_true _ _ _ Htarget),
    (dict_item_ok _ _ _ Hsource), (dict_item_ok _ _ _ Htarget).
  cbn. rewrite Hs, Ht. cbn.
  destruct (rate source * rate target =? 0)%float; reflexivity.
Qed.

(** No direct rate, no reverse entry, and no pair of rates through USD:
    the rate is reported unavailable, with the pair keys of the table. *)
Lemma find_rate_unavailable rates from_currency to_currency :
  dict_get (from_currency ++ "_" ++ to_currency) rates = None ->
  dict_get (to_currency ++ "_" ++ from_currency) rates = None ->
  (from_currency = "USD" \/ to_currency = "USD"
   \/ dict_get (from_currency ++ "_USD") rates = None
   \/ dict_get ("USD_" ++ to_currency) rates = None) ->
  find_rate rates from_currency to_currency
  = ([Out (RateUnavailable from_currency to_currency);
      Out (AvailableRates (filter not_metadata (dict_keys rates)))],
     Next tt).
Proof.
  intros Hdirect Hreverse Hbridge. unfold find_rate.
  rewrite (dict_in_false _ _ Hdirect), (dict_in_false _ _ Hreverse).
  cbn [andb].
  destruct Hbridge as [-> | [-> | [H | H]]].
  - reflexivity.
  - rewrite andb_false_r. reflexivity.
  - rewrite (dict_in_false _ _ H), andb_false_r.
    destruct (_ && _); reflexivity.
  - rewrite (dict_in_false _ _ H). cbn [andb].
    destruct (_ && _); reflexivity.
Qed.

Lemma registry_code_not_empty (a : string) :
  dict_in (strip (upper a)) _currency_registry = true ->
  is_empty a = false /\ is_empty (strip (upper a)) = false.
Proof.
  intros H. split.
  - destruct a; [discriminate H | reflexivity].
  - apply registry_code_shape in H. cbn [In] in H.
    repeat destruct H as [<- | H]; try reflexivity. contradiction.
Qed.

Lemma registry_get_currency (a : string) :
  dict_in (strip (upper a)) _currency_registry = true ->
  exists c, get_currency a = Ok c.
Proof.
  intros H. apply dict_in_get in H. destruct H as [c H].
  exists c. rewrite get_currency_eq, H. reflexivity.
Qed.

(** A pair key made of a registry code and anything is neither [source]
    nor [last_refresh]. *)
Lemma registry_pair_not_metadata (a b : string) :
  dict_in a _currency_registry = true ->
  not_metadata (a ++ "_" ++ b) = true /\ not_metadata (b ++ "_" ++ a) = true.
Proof.
  intros H. apply registry_code_shape in H. cbn [In] in H.
  assert (Hlast : forall s, last_char s "x"%char <> "e"%char ->
                            last_char s "x"%char <> "h"%char ->
                            not_metadata s = true).
  { intros s He Hh. unfold not_metadata, metadata_keys, in_list. cbn.
    destruct (String.eqb_spec s "source") as [->|_]; [now elim He|].
    destruct (String.eqb_spec s "last_refresh") as [->|_]; [now elim Hh|].
    reflexivity. }
  repeat destruct H as [<- | H]; try contradiction;
    (split; [reflexivity |
             apply Hlast; rewrite !last_char_append; cbn; discriminate]).
Qed.

(** With both codes in the registry and the rates loaded,
    [get_rate_command] prints what [find_rate] prints, provided
    [find_rate] does not raise. *)
Lemma get_rate_command_find_rate a b state env rates t c :
  dict_in (strip (upper a)) _currency_registry = true ->
  dict_in (strip (upper b)) _currency_registry = true ->
  load_rates env = Ok rates ->
  find_rate rates (strip (upper a)) (strip (upper b)) = (t, c) ->
  (forall e, c <> Raised e) ->
  get_rate_command (rate_args a b) state env = t.
Proof.
  intros Ha Hb Hload Hfind Hc.
  destruct (registry_code_not_empty a Ha) as [Ha1 Ha2].
  destruct (registry_code_not_empty b Hb) as [Hb1 Hb2].
  destruct (registry_get_currency a Ha) as [ca Hca].
  destruct (registry_get_currency b Hb) as [cb Hcb].
  unfold get_rate_command. cbn [rate_args arg_from arg_to falsy].
  rewrite Ha1, Hb1. cbn. rewrite Hca, Hcb. cbn.
  rewrite Ha2, Hb2, Hload. cbn. rewrite Hfind. cbn.
  destruct c as [[]| |e]; cbn; try reflexivity; try apply app_nil_r.
  now elim (Hc e).
Qed.

(** C4: when the table holds the key [FROM_TO], the rate query prints that
    entry's rate as a stored (direct) rate, followed by the reverse quote
    [1 / rate]; the reverse quote is left out exactly when the stored
    rate equals 0. *)
Theorem direct_rate_with_reverse_quote a b state env rates d t :
  dict_in (strip (upper a)) _currency_registry = true ->
  dict_in (strip (upper b)) _currency_registry = true ->
  load_rates env = Ok rates ->
  dict_get (strip (upper a) ++ "_" ++ strip (upper b)) rates
  = Some (Quote d) ->
  updated_at d = Some t ->
  exists note,
    provenance_of note = direct
    /\ get_rate_command (rate_args a b) state env
       = Out (RateLine (strip (upper a)) (strip (upper b)) (rate d) note)
           :: (if (rate d =? 0)%float then []
               else [Out (ReverseRateLine (strip (upper b)) (strip (upper a))
                            (1 / rate d)%float)]).
Proof.
  intros Ha Hb Hload Hget Ht. exists (Stored t). split; [reflexivity|].
  eapply get_rate_command_find_rate; eauto.
  - apply find_rate_direct; auto.
    apply (registry_pair_not_metadata _ _ Ha).
  - discriminate.
Qed.

Lemma direct_rate_with_reverse_quote_witness :
  exists note,
    provenance_of note = direct
    /\ get_rate_command (rate_args "eur" "USD")
         logged_out (sample_env [] rates_eur_usd)
       = [Out (RateLine "EUR" "USD" 1.08 note);
          Out (ReverseRateLine "USD" "EUR" (1 / 1.08)%float)].
Proof.
  exact (direct_rate_with_reverse_quote "eur" "USD" logged_out
           (sample_env [] rates_eur_usd) rates_eur_usd
           {| rate := 1.08; updated_at := Some "2025-10-09T10:30:00" |}
           "2025-10-09T10:30:00" eq_refl eq_refl eq_refl eq_refl eq_refl).
Defined.

(** C2, at the input where the code departs from it: with the reverse
    key [USD_EUR] stored at rate 0 the query for (EUR, USD) returns
    having printed nothing, where the claim has it report the rate
    unavailable, as the code does once the entry is removed. *)
Theorem zero_reverse_rate_is_not_reported_unavailable :
  get_rate_command (rate_args "EUR" "USD") logged_out
    (sample_env [] [("USD_EUR", quote 0)])
  = []
  /\ get_rate_command (rate_args "EUR" "USD") logged_out (sample_env [] [])
     = [Out (RateUnavailable "EUR" "USD"); Out (AvailableRates [])].
Proof. split; reflexivity. Qed.

(** C3, at the input where the code departs from it: the table of
    section 8 resolves (EUR, RUB) through USD to 97.2, but with the
    reverse key [RUB_EUR] added at rate 0, which the reverse step cannot
    invert, the query returns having printed nothing instead of the
    bridged rate. *)
Theorem zero_reverse_rate_hides_usd_bridge :
  get_rate_command (rate_args "EUR" "RUB") logged_out
    (sample_env [] rates_usd_bridge)
  = [Out (RateLine "EUR" "RUB" 97.2 Computed);
     Out (ReverseRateLine "RUB" "EUR" (1 / 97.2)%float)]
  /\ get_rate_command (rate_args "EUR" "RUB") logged_out
       (sample_env [] (("RUB_EUR", quote 0) :: rates_usd_bridge))
     = [].
Proof. split; reflexivity. Qed.

End RateSpec.

(** ** Portfolio valuation *)

Module ValuationSpec.

Import Currencies Models Interface Spec.
Import Samples PyFacts CurrenciesSpec RateSpec.

(** The loop prints one row per wallet, in portfolio order, and adds the
    resolved values to the running total. *)
Lemma wallets_loop_rows base exchange_rates items total :
  wallets_loop (ArgStr base) exchange_rates items total
  = (map (breakdown_row base exchange_rates) items,
     Next (fold_left
             (fun total v =>
                match v with Some x => (total + x)%float | None => total end)
             (map (contributed_value base exchange_rates) items) total)).
Proof.
  revert total. induction items as [|[code wallet] items IH]; intros total.
  - reflexivity.
  - cbn [wallets_loop str_eq fstr map fold_left breakdown_row
           contributed_value].
    destruct (String.eqb code base) eqn:Hbase.
    + cbn. rewrite IH. reflexivity.
    + unfold dict_in, dict_item.
      destruct (dict_get (code ++ "_" ++ base) exchange_rates) as [r|];
        cbn; rewrite IH; reflexivity.
Qed.

(** What [show_portfolio_command] prints for a logged-in user with a
    portfolio that is not empty, once the rates are loaded. *)
Lemma show_portfolio_report args state env user portfolio rates ex base :
  current_user state = Some user ->
  find_portfolio_by_user_id (load_portfolios env) (user_id user)
  = Some portfolio ->
  wallets portfolio <> [] ->
  load_rates env = Ok rates ->
  build_exchange_rates rates [] = Ok ex ->
  base_of args base ->
  show_portfolio_command args state env
  = Out (PortfolioHeader (username user) base)
      :: map (breakdown_row base ex) (wallets portfolio)
      ++ [Out Separator;
          Out (Total (total_of (map (contributed_value base ex)
                                  (wallets portfolio))) base)].
Proof.
  intros Huser Hfind Hwallets Hload Hbuild Hbase.
  unfold show_portfolio_command.
  assert (Hb : match arg_base args with
               | Some b => b
               | None => ArgStr "USD"
               end = ArgStr base).
  { destruct Hbase as [-> | [-> ->]]; reflexivity. }
  rewrite Hb, Huser. cbn. rewrite Hfind. cbn. rewrite Hload.
  unfold from_dict.
  destruct (wallets portfolio) as [|item items] eqn:Hw; [contradiction|].
  cbn -[wallets_loop]. rewrite Hbuild. cbn -[wallets_loop].
  rewrite wallets_loop_rows. cbn -[map contributed_value breakdown_row].
  reflexivity.
Qed.

Lemma not_metadata_eq (k : string) :
  not_metadata k
  = negb (String.eqb k "source") && negb (String.eqb k "last_refresh").
Proof.
  unfold not_metadata, metadata_keys, in_list. cbn [existsb].
  rewrite orb_false_r, negb_orb. reflexivity.
Qed.

Lemma dict_get_absent {V} (k : string) (d : dict V) :
  ~ In k (dict_keys d) -> dict_get k d = None.
Proof.
  induction d as [|[k0 v0] d IH]; cbn; intros Hin.
  - reflexivity.
  - destruct (String.eqb_spec k k0) as [->|_]; [tauto|].
    apply IH. tauto.
Qed.

(** A key that is metadata or missing from the loaded rates is left as
    it was in the table under construction. *)
Lemma build_exchange_rates_other rates acc ex k :
  build_exchange_rates rates acc = Ok ex ->
  not_metadata k = false \/ dict_get k rates = None ->
  dict_get k ex = dict_get k acc.
Proof.
  revert acc. induction rates as [|[k0 v0] rates IH]; intros acc Hbuild Hk.
  - cbn in Hbuild. congruence.
  - cbn [build_exchange_rates] in Hbuild.
    rewrite <- not_metadata_eq in Hbuild.
    assert (Hrest : not_metadata k = false \/ dict_get k rates = None).
    { destruct Hk as [Hk | Hk]; [auto|]. cbn in Hk.
      destruct (String.eqb k k0); [discriminate | auto]. }
    destruct (not_metadata k0) eqn:Hk0.
    + destruct (item_rate v0) as [r|e]; [|discriminate]. cbn in Hbuild.
      rewrite (IH _ Hbuild Hrest), dict_get_set.
      destruct (String.eqb_spec k k0) as [->|_]; [|reflexivity].
      destruct Hk as [Hk | Hk]; [congruence|].
      cbn in Hk. rewrite String.eqb_refl in Hk. discriminate.
    + apply (IH _ Hbuild Hrest).
Qed.

(** A pair entry of the loaded rates is in the table that is built, with
    its rate. *)
Lemma build_exchange_rates_pair rates acc ex k d :
  NoDup (dict_keys rates) ->
  build_exchange_rates rates acc = Ok ex ->
  not_metadata k = true ->
  dict_get k rates = Some (Quote d) ->
  dict_get k ex = Some (rate d).
Proof.
  revert acc. induction rates as [|[k0 v0] rates IH];
    intros acc Hnodup Hbuild Hmeta Hget.
  - discriminate.
  - cbn [build_exchange_rates] in Hbuild.
    rewrite <- not_metadata_eq in Hbuild.
    cbn in Hnodup. inversion Hnodup as [|? ? Hnotin Hnodup']; subst.
    cbn [dict_get] in Hget.
    destruct (String.eqb_spec k k0) as [->|Hne].
    + injection Hget as ->. rewrite Hmeta in Hbuild. cbn in Hbuild.
      rewrite (build_exchange_rates_other _ _ _ k0 Hbuild
                 (or_intror (dict_get_absent _ _ Hnotin))).
      rewrite dict_get_set, String.eqb_refl. reflexivity.
    + destruct (not_metadata k0).
      * destruct (item_rate v0) as [r|e]; [|discriminate]. cbn in Hbuild.
        apply (IH _ Hnodup' Hbuild Hmeta Hget).
      * apply (IH _ Hnodup' Hbuild Hmeta Hget).
Qed.



(** Section 8: the same portfolio with no BTC rate, and the empty
    portfolio, which is reported apart. *)
Example valuation_without_btc_rate :
  show_portfolio_command (base_args "USD") logged_in
    (sample_env usd_and_btc rates_eur_usd)
  = [Out (PortfolioHeader "alice" "USD");
     Out (WalletBase "USD" 100 100 "USD");
     Out (WalletRateNotFound "BTC" 0.01);
     Out Separator;
     Out (Total 100 "USD")]
  /\ show_portfolio_command (base_args "USD") logged_in
       (sample_env [] rates_eur_usd)
     = [Out PortfolioEmpty].
Proof. split; reflexivity. Qed.

(** When the rates cannot be loaded the valuation warns and uses its three
    base rates. *)
Example valuation_with_base_rates :
  show_portfolio_command (base_args "USD") logged_in
    {| portfolios_file := [portfolio_of usd_and_btc];
       rates_file := Raise (ApiRequestError "Файл с курсами не найден") |}
  = [Out (Warning (ApiRequestError "Файл с курсами не найден"));
     Out UsingBaseRates;
     Out (PortfolioHeader "alice" "USD");
     Out (WalletBase "USD" 100 100 "USD");
     Out (WalletValue "BTC" 0.01 500 "USD");
     Out Separator;
     Out (Total 600 "USD")].
Proof. reflexivity. Qed.

(** C1 as stated fails: with the table [{"EUR_USD": 1.08}] the rate query
    resolves (USD, EUR) by inverting the reverse entry, yet the valuation
    in EUR of a wallet of 100 USD reports the rate as not found and
    totals 0. *)
Lemma valuation_does_not_invert_reverse_rate :
  resolved_rate (get_rate_command (rate_args "USD" "EUR") logged_in
                   (sample_env [holding "USD" 100] rates_eur_usd))
  = Some (1 / 1.08)%float
  /\ show_portfolio_command (base_args "EUR") logged_in
       (sample_env [holding "USD" 100] rates_eur_usd)
     = [Out (PortfolioHeader "alice" "EUR");
        Out (WalletRateNotFound "USD" 100);
        Out Separator;
        Out (Total 0 "EUR")].
Proof. split; reflexivity. Qed.

(** No rate through USD either: (EUR, RUB) is resolved by the rate query
    and not by the valuation. *)
Example valuation_does_not_bridge_through_usd :
  resolved_rate (get_rate_command (rate_args "EUR" "RUB") logged_in
                   (sample_env [holding "EUR" 10] rates_usd_bridge))
  = Some 97.2%float
  /\ show_portfolio_command (base_args "RUB") logged_in
       (sample_env [holding "EUR" 10] rates_usd_bridge)
     = [Out (PortfolioHeader "alice" "RUB");
        Out (WalletRateNotFound "EUR" 10);
        Out Separator;
        Out (Total 0 "RUB")].
Proof. split; reflexivity. Qed.

(** C1, amended: for a wallet of a registry currency other than the base
    currency, the valuation looks up the one key
    [walletCurrency_baseCurrency] among the loaded rates: if the entry
    is there the wallet is valued at balance times its rate, and if it is
    not the wallet is reported as rate not found, whatever other entries
    the table holds. *)
Theorem valuation_uses_direct_rate_only
    args state env user portfolio rates ex base code wallet :
  current_user state = Some user ->
  find_portfolio_by_user_id (load_portfolios env) (user_id user)
  = Some portfolio ->
  load_rates env = Ok rates ->
  NoDup (dict_keys rates) ->
  build_exchange_rates rates [] = Ok ex ->
  base_of args base ->
  In (code, wallet) (wallets portfolio) ->
  dict_in code _currency_registry = true ->
  code <> base ->
  (forall d,
      dict_get (code ++ "_" ++ base) rates = Some (Quote d) ->
      In (Out (WalletValue code (balance wallet)
                 (balance wallet * rate d)%float base))
        (show_portfolio_command args state env))
  /\ (dict_get (code ++ "_" ++ base) rates = None ->
      In (Out (WalletRateNotFound code (balance wallet)))
        (show_portfolio_command args state env)).
Proof.
  intros Huser Hfind Hload Hnodup Hbuild Hbase Hin Hreg Hne.
  assert (Hwallets : wallets portfolio <> [])
    by (intros H; rewrite H in Hin; contradiction).
  rewrite (show_portfolio_report _ _ _ _ _ _ _ _
             Huser Hfind Hwallets Hload Hbuild Hbase).
  assert (Hrow : forall row,
             breakdown_row base ex (code, wallet) = row ->
             In row (Out (PortfolioHeader (username user) base)
                       :: map (breakdown_row base ex) (wallets portfolio)
                       ++ [Out Separator;
                           Out (Total
                                  (total_of
                                     (map (contributed_value base ex)
                                        (wallets portfolio))) base)])).
  { intros row <-. right. apply in_or_app. left.
    apply in_map. exact Hin. }
  apply String.eqb_neq in Hne.
  destruct (registry_pair_not_metadata code base Hreg) as [Hmeta _].
  split.
  - intros d Hget. apply Hrow. unfold breakdown_row, contributed_value.
    rewrite Hne, (build_exchange_rates_pair _ _ _ _ _ Hnodup Hbuild Hmeta Hget).
    reflexivity.
  - intros Hget. apply Hrow. unfold breakdown_row, contributed_value.
    rewrite Hne, (build_exchange_rates_other _ _ _ _ Hbuild (or_intror Hget)).
    reflexivity.
Qed.

Lemma valuation_uses_direct_rate_only_witness :
  (forall d,
      dict_get "BTC_USD" rates_btc_usd = Some (Quote d) ->
      In (Out (WalletValue "BTC" 0.01 (0.01 * rate d)%float "USD"))
        (show_portfolio_command (base_args "USD") logged_in
           (sample_env usd_and_btc rates_btc_usd)))
  /\ (dict_get "BTC_USD" rates_btc_usd = None ->
      In (Out (WalletRateNotFound "BTC" 0.01))
        (show_portfolio_command (base_args "USD") logged_in
           (sample_env usd_and_btc rates_btc_usd))).
Proof.
  apply (valuation_uses_direct_rate_only (base_args "USD") logged_in
           (sample_env usd_and_btc rates_btc_usd) alice
           (portfolio_of usd_and_btc) rates_btc_usd
           [("BTC_USD", 50000%float)] "USD" "BTC"
           {| currency_code := "BTC"; balance := 0.01 |}).
  - reflexivity.
  - reflexivity.
  - reflexivity.
  - repeat constructor; cbn; intuition discriminate.
  - reflexivity.
  - left. reflexivity.
  - right. left. reflexivity.
  - reflexivity.
  - discriminate.
Defined.

End ValuationSpec.

(** ** Metadata keys of the rates file *)

Module MetadataSpec.

Import Currencies Models Interface Spec.
Import Samples PyFacts CurrenciesSpec RateSpec ValuationSpec.

(** The metadata entries play no part in the table that is built. *)
Lemma build_exchange_rates_strip rates acc :
  build_exchange_rates (strip_metadata rates) acc
  = build_exchange_rates rates acc.
Proof.
  revert acc. induction rates as [|[k v] rates IH]; intros acc.
  - reflexivity.
  - cbn [strip_metadata filter fst build_exchange_rates].
    fold (strip_metadata rates).
    rewrite <- not_metadata_eq. destruct (not_metadata k) eqn:Hk.
    + cbn [build_exchange_rates]. rewrite <- not_metadata_eq, Hk.
      destruct (item_rate v); cbn; auto.
    + apply IH.
Qed.

Lemma dict_get_strip rates k :
  not_metadata k = true ->
  dict_get k (strip_metadata rates) = dict_get k rates.
Proof. intros H. apply (dict_get_filter not_metadata). exact H. Qed.

Lemma keys_strip rates :
  filter not_metadata (dict_keys (strip_metadata rates))
  = filter not_metadata (dict_keys rates).
Proof.
  induction rates as [|[k v] rates IH]; [reflexivity|].
  cbn [strip_metadata filter fst dict_keys map].
  fold (strip_metadata rates).
  destruct (not_metadata k) eqn:Hk; cbn [dict_keys map filter fst].
  - rewrite Hk. f_equal. exact IH.
  - exact IH.
Qed.

(** The two keys of the USD bridge are never metadata keys. *)
Lemma bridge_keys_not_metadata (from_currency to_currency : string) :
  not_metadata ("USD_" ++ to_currency) = true
  /\ not_metadata (from_currency ++ "_USD") = true.
Proof.
  split; [reflexivity|].
  rewrite not_metadata_eq.
  destruct (String.eqb_spec (from_currency ++ "_USD") "source") as [H|_].
  { apply (f_equal (fun s => last_char s "x"%char)) in H.
    rewrite last_char_append in H. discriminate H. }
  destruct (String.eqb_spec (from_currency ++ "_USD") "last_refresh")
    as [H|_]; [|reflexivity].
  apply (f_equal (fun s => last_char s "x"%char)) in H.
  rewrite last_char_append in H. discriminate H.
Qed.

Lemma find_rate_strip rates from_currency to_currency :
  find_rate (strip_metadata rates) from_currency to_currency
  = find_rate rates from_currency to_currency.
Proof.
  unfold find_rate, dict_in, dict_item.
  destruct (bridge_keys_not_metadata from_currency to_currency)
    as [Htarget Hsource].
  rewrite (dict_get_strip rates _ Htarget), (dict_get_strip rates _ Hsource),
    keys_strip.
  destruct (not_metadata (from_currency ++ "_" ++ to_currency)) eqn:Hd.
  - rewrite (dict_get_strip rates _ Hd).
    destruct (not_metadata (to_currency ++ "_" ++ from_currency)) eqn:Hr.
    + rewrite (dict_get_strip rates _ Hr). reflexivity.
    + rewrite !andb_false_r. reflexivity.
  - rewrite !andb_false_r.
    destruct (not_metadata (to_currency ++ "_" ++ from_currency)) eqn:Hr.
    + rewrite (dict_get_strip rates _ Hr). reflexivity.
    + rewrite !andb_false_r. reflexivity.
Qed.

(** Runs a command on both sides of an equation, case by case on the
    conditions it tests, innermost first. *)
Ltac destruct_scrutinee :=
  match goal with
  | |- context [match ?x with _ => _ end] =>
      lazymatch type of x with
      | prod _ _ => fail
      | _ =>
          lazymatch x with
          | context [match _ with _ => _ end] => fail
          | _ => destruct x eqn:?
          end
      end
  end.

Ltac run_command :=
  repeat (cbv beta iota zeta delta
            [bind ret lift rbind print return_ save_portfolios try_except
             trace as_str falsy fstr str_eq trade_handler float_of_arg
             load_portfolios load_rates with_rates portfolios_file
             rates_file from_dict to_dict get_or_create_wallet get_wallet
             set_wallet deposit withdraw fst snd];
          cbn [app];
          try rewrite build_exchange_rates_strip;
          try rewrite find_rate_strip;
          try reflexivity;
          destruct_scrutinee).

Lemma show_portfolio_command_strip args state env rates :
  load_rates env = Ok rates ->
  show_portfolio_command args state (with_rates env (strip_metadata rates))
  = show_portfolio_command args state env.
Proof.
  intros Hload. unfold show_portfolio_command, load_rates in *.
  rewrite Hload. run_command.
Qed.

Lemma get_rate_command_strip args state env rates :
  load_rates env = Ok rates ->
  get_rate_command args state (with_rates env (strip_metadata rates))
  = get_rate_command args state env.
Proof.
  intros Hload. unfold get_rate_command, load_rates in *.
  rewrite Hload. run_command.
Qed.

Lemma buy_command_strip float_of_str args state env rates :
  load_rates env = Ok rates ->
  buy_command float_of_str args state
    (with_rates env (strip_metadata rates))
  = buy_command float_of_str args state env.
Proof.
  intros Hload. unfold buy_command, load_rates in *.
  rewrite Hload. run_command.
Qed.

Lemma sell_command_strip float_of_str args state env rates :
  load_rates env = Ok rates ->
  sell_command float_of_str args state
    (with_rates env (strip_metadata rates))
  = sell_command float_of_str args state env.
Proof.
  intros Hload. unfold sell_command, load_rates in *.
  rewrite Hload. run_command.
Qed.

Lemma metadata_key_spec (k : string) :
  In k metadata_keys <-> not_metadata k = false.
Proof.
  rewrite not_metadata_eq. unfold metadata_keys. cbn [In].
  destruct (String.eqb_spec k "source") as [H1|H1];
    destruct (String.eqb_spec k "last_refresh") as [H2|H2];
    cbn; intuition congruence.
Qed.

(** A pair key that is a metadata key is matched neither by the direct
    nor by the reverse step of [find_rate]. *)
Lemma find_rate_skips_metadata rates from_currency to_currency r t :
  (In (from_currency ++ "_" ++ to_currency) metadata_keys ->
   ~ In (Out (RateLine from_currency to_currency r (Stored t)))
       (trace (find_rate rates from_currency to_currency)))
  /\ (In (to_currency ++ "_" ++ from_currency) metadata_keys ->
      ~ In (Out (RateLine from_currency to_currency r (ComputedStored t)))
          (trace (find_rate rates from_currency to_currency))).
Proof.
  split; intros Hk; apply metadata_key_spec in Hk; unfold find_rate;
    rewrite Hk, ?andb_false_r;
    repeat (cbv beta iota zeta delta
              [bind ret lift rbind print return_ trace fst snd];
            cbn [app]; destruct_scrutinee);
    cbn; intuition congruence.
Qed.

(** The keys listed when a rate is unavailable are the keys of the table
    without the metadata keys. *)
Lemma find_rate_lists_pairs rates from_currency to_currency keys :
  In (Out (AvailableRates keys))
    (trace (find_rate rates from_currency to_currency)) ->
  keys = filter not_metadata (dict_keys rates).
Proof.
  unfold find_rate.
  repeat (cbv beta iota zeta delta
            [bind ret lift rbind print return_ trace fst snd];
          cbn [app]; destruct_scrutinee);
    cbn; intuition congruence.
Qed.

(** C10: the entries [source] and [last_refresh] of the loaded rates are
    never read as currency pairs.  Each of the four commands behaves as
    it would had the two entries been removed from the mapping; the
    table of rates built for the valuation and for the buy and sell
    estimates has no such key; the direct and the reverse step of a rate
    query never match such a key; the keys listed with an unavailable
    rate omit them. *)
Theorem metadata_keys_are_never_pairs float_of_str args state env rates :
  load_rates env = Ok rates ->
  show_portfolio_command args state (with_rates env (strip_metadata rates))
  = show_portfolio_command args state env
  /\ buy_command float_of_str args state
       (with_rates env (strip_metadata rates))
     = buy_command float_of_str args state env
  /\ sell_command float_of_str args state
       (with_rates env (strip_metadata rates))
     = sell_command float_of_str args state env
  /\ get_rate_command args state (with_rates env (strip_metadata rates))
     = get_rate_command args state env
  /\ (forall ex k,
        build_exchange_rates rates [] = Ok ex ->
        In k metadata_keys -> dict_in k ex = false)
  /\ (forall from_currency to_currency r t,
        In (from_currency ++ "_" ++ to_currency) metadata_keys ->
        ~ In (Out (RateLine from_currency to_currency r (Stored t)))
            (trace (find_rate rates from_currency to_currency)))
  /\ (forall from_currency to_currency r t,
        In (to_currency ++ "_" ++ from_currency) metadata_keys ->
        ~ In (Out (RateLine from_currency to_currency r
                     (ComputedStored t)))
            (trace (find_rate rates from_currency to_currency)))
  /\ (forall from_currency to_currency keys k,
        In (Out (AvailableRates keys))
          (trace (find_rate rates from_currency to_currency)) ->
        In k metadata_keys -> ~ In k keys).
Proof.
  intros Hload.
  split; [apply show_portfolio_command_strip; exact Hload|].
  split; [apply buy_command_strip; exact Hload|].
  split; [apply sell_command_strip; exact Hload|].
  split; [apply get_rate_command_strip; exact Hload|].
  split; [|split; [|split]].
  - intros ex k Hbuild Hk. apply metadata_key_spec in Hk.
    unfold dict_in.
    rewrite (build_exchange_rates_other _ _ _ k Hbuild (or_introl Hk)).
    reflexivity.
  - intros. now apply find_rate_skips_metadata.
  - intros. now apply find_rate_skips_metadata.
  - intros from_currency to_currency keys k Hin Hk Hkeys.
    apply find_rate_lists_pairs in Hin. subst keys.
    apply filter_In in Hkeys. destruct Hkeys as [_ Hkeys].
    apply metadata_key_spec in Hk. congruence.
Qed.

Lemma metadata_keys_are_never_pairs_witness :
  show_portfolio_command (base_args "USD") logged_in
    (with_rates (sample_env usd_and_btc rates_btc_usd)
       (strip_metadata rates_btc_usd))
  = show_portfolio_command (base_args "USD") logged_in
      (sample_env usd_and_btc rates_btc_usd).
Proof.
  exact (proj1 (metadata_keys_are_never_pairs sample_float
                  (base_args "USD") logged_in
                  (sample_env usd_and_btc rates_btc_usd) rates_btc_usd
                  eq_refl)).
Defined.

(** The rates file as the parser writes it: the valuation and the list of
    known pairs do not trip over its metadata. *)
Example rates_file_with_metadata :
  build_exchange_rates rates_btc_usd [] = Ok [("BTC_USD", 50000%float)]
  /\ get_rate_command (rate_args "ETH" "BTC") logged_in
       (sample_env [] rates_btc_usd)
     = [Out (RateUnavailable "ETH" "BTC");
        Out (AvailableRates ["BTC_USD"])].
Proof. split; reflexivity. Qed.

End MetadataSpec.

(** ** Buying and selling *)

Module TradeSpec.

Import Currencies Models Interface Spec.
Import Samples PyFacts FloatFacts CurrenciesSpec RateSpec ValuationSpec
  MetadataSpec.

Ltac run_trade :=
  repeat (cbv beta iota zeta delta
            [bind ret lift rbind print return_ save_portfolios try_except
             trace as_str falsy fstr str_eq trade_handler float_of_arg
             load_portfolios load_rates from_dict to_dict
             get_or_create_wallet get_wallet deposit withdraw fst snd
             PrimFloat.ltb PrimFloat.leb];
          cbn [app saved reports_trade existsb orb];
          destruct_scrutinee).

Lemma get_currency_ok (s : string) (c : Currency) :
  get_currency s = Ok c ->
  dict_in (strip (upper s)) _currency_registry = true.
Proof.
  rewrite get_currency_eq. unfold dict_in.
  destruct (dict_get (strip (upper s)) _currency_registry);
    [reflexivity | discriminate].
Qed.

Ltac trade_fact :=
  first
    [ reflexivity
    | eassumption
    | eapply get_currency_ok; eassumption
    | match goal with
      | H : arg_amount _ = _ |- amount_read _ _ = _ =>
          unfold amount_read; rewrite H; cbn [float_of_arg];
          first [reflexivity | eassumption]
      | H1 : (_ <=? 0)%float = false, H2 : (_ <? _)%float = false |- _ =>
          rewrite H1, H2; reflexivity
      | H : _ = _ |- _ => rewrite H; reflexivity
      end ].

Ltac trade_leaf :=
  first
    [ left; split; reflexivity
    | right; repeat eexists;
      repeat match goal with |- _ /\ _ => split end; trade_fact ].

(** A purchase either writes nothing and reports no trade, or it is the
    purchase of a positive amount of a registry currency by the logged-in
    user, written once. *)
Lemma buy_command_cases float_of_str args state env :
  (saved (buy_command float_of_str args state env) = []
   /\ reports_trade (buy_command float_of_str args state env) = false)
  \/ exists s x user portfolio portfolio' wallet wallet',
       arg_currency args = Some (ArgStr s)
       /\ dict_in (strip (upper s)) _currency_registry = true
       /\ amount_read float_of_str args = Some x
       /\ (x <=? 0)%float = false
       /\ current_user state = Some user
       /\ find_portfolio_by_user_id (load_portfolios env) (user_id user)
          = Some portfolio
       /\ get_or_create_wallet portfolio (strip (upper s))
          = (portfolio', wallet)
       /\ deposit wallet x = Ok wallet'
       /\ reports_trade (buy_command float_of_str args state env) = true
       /\ saved (buy_command float_of_str args state env)
          = [replace_portfolio (load_portfolios env) (user_id user)
               (set_wallet portfolio' (strip (upper s)) wallet')].
Proof.
  unfold buy_command. run_trade; trade_leaf.
Qed.

(** A sale either writes nothing and reports no trade, or it is the sale
    by the logged-in user of a positive amount, not above the balance, of
    a registry currency the user holds, written once. *)
Lemma sell_command_cases float_of_str args state env :
  (saved (sell_command float_of_str args state env) = []
   /\ reports_trade (sell_command float_of_str args state env) = false)
  \/ exists s x user portfolio wallet wallet',
       arg_currency args = Some (ArgStr s)
       /\ dict_in (strip (upper s)) _currency_registry = true
       /\ amount_read float_of_str args = Some x
       /\ (x <=? 0)%float = false
       /\ current_user state = Some user
       /\ find_portfolio_by_user_id (load_portfolios env) (user_id user)
          = Some portfolio
       /\ get_wallet portfolio (strip (upper s)) = Some wallet
       /\ withdraw wallet x = Ok wallet'
       /\ reports_trade (sell_command float_of_str args state env) = true
       /\ saved (sell_command float_of_str args state env)
          = [replace_portfolio (load_portfolios env) (user_id user)
               (set_wallet portfolio (strip (upper s)) wallet')].
Proof.
  unfold sell_command. run_trade; trade_leaf.
Qed.












(** Section 8, wallet examples, through the commands: a purchase of -1
    and a sale of 100 from a balance of 50 are refused and write
    nothing; a sale of 30 from a balance of 50 leaves 20. *)
Example trades_of_section_8 :
  buy_command sample_float (trade_args "USD" "-1") logged_in
    (sample_env [holding "USD" 50] rates_eur_usd)
  = [Out AmountNotPositive]
  /\ sell_command sample_float (trade_args "USD" "100") logged_in
       (sample_env [holding "USD" 50] rates_eur_usd)
     = [Out (ExnMessage (InsufficientFundsError "USD" 50 100))]
  /\ sell_command sample_float (trade_args "usd" "30") logged_in
       (sample_env [holding "USD" 50] rates_eur_usd)
     = [SavePortfolios [portfolio_of [holding "USD" 20]];
        Out (SellDone 30 "USD");
        Out PortfolioChanges;
        Out (BalanceChange "USD" 50 20)]
  /\ buy_command sample_float (trade_args "xyz" "30") logged_in
       (sample_env [holding "USD" 50] rates_eur_usd)
     = [Out (ExnMessage (CurrencyNotFoundError "XYZ"));
        Out CheckCurrencyCode].
Proof. repeat split; reflexivity. Qed.

End TradeSpec.

(** ** The argument parser *)

Module ArgumentsSpec.

Import Interface Arguments PyFacts.

(** Reading a run of options leaves, under each key, what its occurrences
    set in turn. *)
Lemma parse_loop_options items parsed :
  forallb plain_value items = true ->
  parse_loop (flat_map option_words items) parsed
  = fold_left (fun d item => dict_set (fst item) (option_value item) d)
      items parsed.
Proof.
  revert parsed. induction items as [|[k [v|]] items IH]; intros parsed Hplain.
  - reflexivity.
  - cbn [forallb plain_value snd] in Hplain.
    apply andb_prop in Hplain. destruct Hplain as [Hv Hplain].
    cbn [flat_map option_words fst snd app fold_left].
    cbn [parse_loop]. change (startswith ("--" ++ k) "--") with true.
    cbn iota. rewrite Hv. apply IH. exact Hplain.
  - cbn [forallb plain_value snd andb] in Hplain.
    cbn [flat_map option_words fst snd app fold_left].
    rewrite <- (IH _ Hplain).
    cbn [parse_loop]. change (startswith ("--" ++ k) "--") with true.
    cbn iota.
    destruct items as [|[k' [v'|]] items']; reflexivity.
Qed.

Lemma options_get_other (items : list (string * option string)) d k :
  ~ In k (map fst items) ->
  dict_get k
    (fold_left (fun d item => dict_set (fst item) (option_value item) d)
       items d)
  = dict_get k d.
Proof.
  revert d. induction items as [|[k0 v0] items IH]; intros d Hk.
  - reflexivity.
  - cbn [fold_left fst]. rewrite IH by (cbn in Hk; tauto).
    rewrite dict_get_set. cbn in Hk.
    destruct (String.eqb_spec k k0) as [->|_]; [tauto | reflexivity].
Qed.

(** X1: in a command line made of a command word and options, each
    [--key value] with a value that does not start with [--] or [--key]
    alone, an option reads as the value of its last occurrence, [True]
    when it came alone; this holds of the key [command] too, which
    otherwise reads as the command word; a key that does not occur reads
    as [None]. *)
Theorem parse_args_reads_last_occurrence command before k v after :
  forallb plain_value (before ++ (k, v) :: after) = true ->
  ~ In k (map fst after) ->
  let line := command :: flat_map option_words (before ++ (k, v) :: after) in
  args_get k (parse_args line) = option_value (k, v)
  /\ (forall k',
        ~ In k' (map fst (before ++ (k, v) :: after)) ->
        args_get k' (parse_args line)
        = if String.eqb k' "command" then Some (ArgStr command) else None).
Proof.
  intros Hplain Hlast. cbv zeta. unfold parse_args, args_get. cbn [tl].
  rewrite (parse_loop_options _ _ Hplain). split.
  - rewrite fold_left_app. cbn [fold_left fst].
    rewrite (options_get_other after _ k Hlast), dict_get_set,
      String.eqb_refl. reflexivity.
  - intros k' Hk'. rewrite (options_get_other _ _ k' Hk'). cbn.
    destruct (String.eqb k' "command"); reflexivity.
Qed.

Lemma parse_args_reads_last_occurrence_witness :
  args_get "amount"
    (parse_args ["buy"; "--amount"; "1"; "--currency"; "BTC";
                 "--amount"; "0.05"; "--force"])
  = Some (ArgStr "0.05")
  /\ (forall k',
        ~ In k' ["amount"; "currency"; "amount"; "force"] ->
        args_get k'
          (parse_args ["buy"; "--amount"; "1"; "--currency"; "BTC";
                       "--amount"; "0.05"; "--force"])
        = if String.eqb k' "command" then Some (ArgStr "buy") else None).
Proof.
  apply (parse_args_reads_last_occurrence "buy"
           [("amount", Some "1"); ("currency", Some "BTC")]
           "amount" (Some "0.05") [("force", None)]).
  - reflexivity.
  - cbn. intuition discriminate.
Defined.

(** X2: words that do not start with [--] and follow the command word are
    skipped: the command line reads as it does without them. *)
Theorem parse_args_skips_stray_words command words rest :
  forallb (fun w => negb (startswith w "--")) words = true ->
  parse_args (command :: words ++ rest) = parse_args (command :: rest).
Proof.
  intros Hwords. unfold parse_args. cbn [tl].
  generalize [("command", Some (ArgStr command))].
  induction words as [|w words IH]; intros parsed.
  - reflexivity.
  - cbn [forallb] in Hwords.
    apply andb_prop in Hwords. destruct Hwords as [Hw Hwords].
    cbn [app parse_loop]. apply negb_true_iff in Hw. rewrite Hw.
    apply IH. exact Hwords.
Qed.

Lemma parse_args_skips_stray_words_witness :
  parse_args ("buy" :: ["BTC"; "now"] ++ ["--amount"; "0.05"])
  = parse_args ["buy"; "--amount"; "0.05"].
Proof.
  apply (parse_args_skips_stray_words "buy" ["BTC"; "now"]
           ["--amount"; "0.05"]).
  reflexivity.
Defined.

End ArgumentsSpec.

(** ** Users and registration *)

Module AccountsSpec.

Import Models Interface Arguments Accounts MoreSamples.

Lemma fold_max_ge (ids : list Z) (start : Z) :
  (start <= fold_left Z.max ids start)%Z
  /\ forall id, In id ids -> (id <= fold_left Z.max ids start)%Z.
Proof.
  revert start. induction ids as [|i ids IH]; intros start; cbn.
  - split; [lia | tauto].
  - destruct (IH (Z.max start i)) as [H1 H2]. split; [lia|].
    intros id [<- | Hin]; [lia | auto].
Qed.

Lemma fold_max_in (ids : list Z) (start : Z) :
  In (fold_left Z.max ids start) (start :: ids).
Proof.
  revert start. induction ids as [|i ids IH]; intros start; cbn.
  - left. reflexivity.
  - destruct (IH (Z.max start i)) as [H | H].
    + rewrite <- H.
      destruct (Z.max_spec start i) as [[_ ->] | [_ ->]];
        [right; left | left]; reflexivity.
    + right. right. exact H.
Qed.

Lemma get_next_user_id_above users user :
  In user users ->
  (ud_user_id user < get_next_user_id users)%Z.
Proof.
  destruct users as [|first rest]; [contradiction|].
  intros Hin. unfold get_next_user_id.
  destruct (fold_max_ge (map ud_user_id rest) (ud_user_id first)) as [H1 H2].
  destruct Hin as [<- | Hin]; [lia|].
  specialize (H2 _ (in_map ud_user_id _ _ Hin)). lia.
Qed.

(** X3: the identifier [get_next_user_id] returns for a list that holds
    a user is above the identifier of every user in the list, hence used
    by none, and it is one more than the identifier of one of them. *)
Theorem get_next_user_id_is_fresh users user :
  In user users ->
  (ud_user_id user < get_next_user_id users)%Z
  /\ exists top,
       In top users /\ get_next_user_id users = (ud_user_id top + 1)%Z.
Proof.
  intros Hin. split; [exact (get_next_user_id_above users user Hin)|].
  destruct users as [|first rest]; [contradiction|].
  unfold get_next_user_id.
  pose proof (fold_max_in (map ud_user_id rest) (ud_user_id first)) as Hmax.
  change (ud_user_id first :: map ud_user_id rest)
    with (map ud_user_id (first :: rest)) in Hmax.
  apply in_map_iff in Hmax. destruct Hmax as (top & Htop & Hintop).
  exists top. split; [exact Hintop | rewrite Htop; reflexivity].
Qed.

Lemma get_next_user_id_is_fresh_witness :
  (ud_user_id bob_data < get_next_user_id [alice_data; bob_data])%Z
  /\ exists top,
       In top [alice_data; bob_data]
       /\ get_next_user_id [alice_data; bob_data] = (ud_user_id top + 1)%Z.
Proof.
  apply (get_next_user_id_is_fresh [alice_data; bob_data] bob_data).
  right. left. reflexivity.
Defined.

(** X4: [find_user_by_username] returns the first user of the list with
    the name asked for, and nothing exactly when no user has it. *)
Theorem find_user_by_username_first users name :
  match find_user_by_username users (ArgStr name) with
  | Some user =>
      exists before after,
        users = (before ++ user :: after)%list
        /\ ud_username user = name
        /\ forall other, In other before -> ud_username other <> name
  | None => forall other, In other users -> ud_username other <> name
  end.
Proof.
  induction users as [|u users IH]; cbn [find_user_by_username str_eq].
  - intros other [].
  - destruct (String.eqb_spec (ud_username u) name) as [Hu|Hu].
    + exists [], users. repeat split; auto; intros other [].
    + destruct (find_user_by_username users (ArgStr name)) as [user|].
      * destruct IH as (before & after & -> & Hname & Hbefore).
        exists (u :: before), after. repeat split; auto.
        intros other [<- | Hin]; auto.
      * intros other [<- | Hin]; auto.
Qed.



(** Registration at work: a name that is taken is refused before the
    password is looked at, a short password is refused, and neither
    writes. *)
Example register_command_refusals :
  register_command sample_new_user
    (parse_args ["register"; "--username"; "alice"; "--password"; "x"])
    [alice_data; bob_data] []
  = [Say (UsernameTaken "alice")]
  /\ register_command sample_new_user
       (parse_args ["register"; "--username"; "carol"; "--password"; "abc"])
       [alice_data; bob_data] []
     = [Say PasswordTooShort]
  /\ register_command sample_new_user
       (parse_args ["register"; "--username"; "carol"])
       [alice_data; bob_data] []
     = [Say NeedUsernamePassword]
  /\ register_command sample_new_user
       (parse_args ["register"; "--username"; "carol"; "--password"])
       [alice_data; bob_data] []
     = [Say (RegisterError
               (TypeError "object of type 'bool' has no len()"))].
Proof. repeat split; reflexivity. Qed.

End AccountsSpec.

(** ** The registry as a whole *)

Module RegistrySpec.

Import Currencies Registry PyFacts CurrenciesSpec.



Lemma dict_set_same {V} (k : string) (v : V) (d : dict V) :
  dict_get k d = Some v -> dict_set k v d = d.
Proof.
  induction d as [|[k0 v0] d IH]; cbn; [discriminate|].
  destruct (String.eqb_spec k k0) as [->|_].
  - intros [= ->]. reflexivity.
  - intros H. rewrite (IH H). reflexivity.
Qed.

Lemma initialize_currencies_eq (reg : dict Currency) :
  _initialize_currencies reg = Ok (with_catalog reg).
Proof. reflexivity. Qed.

Lemma with_catalog_get (reg : dict Currency) k c :
  dict_get k _currency_registry = Some c ->
  dict_get k (with_catalog reg) = Some c.
Proof.
  intros H. unfold with_catalog. rewrite registry_value.
  cbn [map snd fold_left code]. rewrite !dict_get_set.
  registry_cases k H; reflexivity.
Qed.

(** X7: run on any registry, [_initialize_currencies] succeeds; in its
    result each of the nine codes holds its currency, every other key
    holds what it held, and running it again changes nothing. *)
Theorem initialize_currencies_is_idempotent (reg : dict Currency) :
  exists reg',
    _initialize_currencies reg = Ok reg'
    /\ _initialize_currencies reg' = Ok reg'
    /\ (forall k c, dict_get k _currency_registry = Some c ->
                    dict_get k reg' = Some c)
    /\ (forall k, dict_in k _currency_registry = false ->
                  dict_get k reg' = dict_get k reg).
Proof.
  exists (with_catalog reg).
  split; [apply initialize_currencies_eq|]. split; [|split].
  - rewrite initialize_currencies_eq. f_equal.
    unfold with_catalog at 1. rewrite registry_value.
    cbn [map snd fold_left code].
    do 9 (rewrite dict_set_same
           by (rewrite ?dict_get_set; cbn -[with_catalog];
               apply with_catalog_get; rewrite registry_value; reflexivity)).
    reflexivity.
  - intros k c H. apply with_catalog_get. exact H.
  - intros k H. unfold with_catalog. rewrite registry_value.
    cbn [map snd fold_left code]. rewrite !dict_get_set.
    unfold dict_in in H. rewrite registry_value in H. cbn [dict_get] in H.
    repeat match goal with
           | H' : context [String.eqb k ?s] |- _ =>
               destruct (String.eqb k s); [discriminate H'|]
           end.
    reflexivity.
Qed.

End RegistrySpec.

(** ** Rate queries: the other branches *)

Module RateQuerySpec.

Import Currencies Models Interface Spec Session.
Import Samples PyFacts CurrenciesSpec RateSpec.

(** X8: a rate query with a code that is not in the registry reports that
    code, the source currency first, with the nine codes of the registry,
    whatever the rates file holds, readable or not. *)
Theorem get_rate_command_unknown_currency args state env a b :
  arg_from args = Some (ArgStr a) ->
  arg_to args = Some (ArgStr b) ->
  a <> "" -> b <> "" ->
  dict_in (normal a) _currency_registry = false
  \/ dict_in (normal b) _currency_registry = false ->
  get_rate_command args state env
  = [Out (ExnMessage
            (CurrencyNotFoundError
               (if dict_in (normal a) _currency_registry
                then normal b else normal a)));
     Out UseHelpGetRate;
     Out (AvailableCurrencies
            ["USD"; "EUR"; "RUB"; "GBP"; "JPY"; "BTC"; "ETH"; "LTC"; "ADA"])].
Proof.
  intros Hfrom Hto Ha Hb Hunknown. unfold normal in *.
  unfold get_rate_command. rewrite Hfrom, Hto.
  cbn [falsy]. destruct a as [|ca a]; [congruence|].
  destruct b as [|cb b]; [congruence|].
  cbn [is_empty orb as_str rbind lift bind ret].
  rewrite !get_currency_eq. unfold dict_in in *.
  destruct (dict_get (strip (upper (String ca a))) _currency_registry).
  - destruct (dict_get (strip (upper (String cb b))) _currency_registry).
    + destruct Hunknown; discriminate.
    + reflexivity.
  - reflexivity.
Qed.

Lemma get_rate_command_unknown_currency_witness :
  get_rate_command (rate_args "usd" "doge") logged_out
    {| portfolios_file := [];
       rates_file := Raise (ApiRequestError "Файл с курсами не найден") |}
  = [Out (ExnMessage (CurrencyNotFoundError "DOGE"));
     Out UseHelpGetRate;
     Out (AvailableCurrencies
            ["USD"; "EUR"; "RUB"; "GBP"; "JPY"; "BTC"; "ETH"; "LTC"; "ADA"])].
Proof.
  apply (get_rate_command_unknown_currency (rate_args "usd" "doge")
           logged_out
           {| portfolios_file := [];
              rates_file := Raise (ApiRequestError "Файл с курсами не найден") |}
           "usd" "doge").
  - reflexivity.
  - reflexivity.
  - discriminate.
  - discriminate.
  - right. reflexivity.
Defined.

(** X9: when the table holds [A_B] at a rate other than 0 and does not
    hold [B_A], the query for (A, B) prints the stored rate and its
    inverse as the reverse quote, and the query for (B, A) prints that
    inverse as a computed rate and the stored rate as the reverse quote:
    the two answers agree. *)
Theorem reverse_query_inverts_the_stored_rate a b state env rates d t :
  dict_in (normal a) _currency_registry = true ->
  dict_in (normal b) _currency_registry = true ->
  load_rates env = Ok rates ->
  dict_get (normal a ++ "_" ++ normal b) rates = Some (Quote d) ->
  dict_get (normal b ++ "_" ++ normal a) rates = None ->
  updated_at d = Some t ->
  (rate d =? 0)%float = false ->
  get_rate_command (rate_args a b) state env
  = [Out (RateLine (normal a) (normal b) (rate d) (Stored t));
     Out (ReverseRateLine (normal b) (normal a) (1 / rate d)%float)]
  /\ get_rate_command (rate_args b a) state env
     = [Out (RateLine (normal b) (normal a) (1 / rate d)%float
               (ComputedStored t));
        Out (ReverseRateLine (normal a) (normal b) (rate d))].
Proof.
  intros Ha Hb Hload Hdirect Hreverse Ht Hrate. unfold normal in *. split.
  - eapply get_rate_command_find_rate; eauto.
    + rewrite (find_rate_direct _ _ _ _ _ Hdirect Ht
                 (proj1 (registry_pair_not_metadata _ _ Ha))).
      rewrite Hrate. reflexivity.
    + discriminate.
  - eapply get_rate_command_find_rate; eauto.
    + apply find_rate_reverse; auto.
      apply (registry_pair_not_metadata _ _ Ha).
    + discriminate.
Qed.

Lemma reverse_query_inverts_the_stored_rate_witness :
  get_rate_command (rate_args "eur" "usd") logged_out
    (sample_env [] rates_eur_usd)
  = [Out (RateLine "EUR" "USD" 1.08 (Stored "2025-10-09T10:30:00"));
     Out (ReverseRateLine "USD" "EUR" (1 / 1.08)%float)]
  /\ get_rate_command (rate_args "usd" "eur") logged_out
       (sample_env [] rates_eur_usd)
     = [Out (RateLine "USD" "EUR" (1 / 1.08)%float
               (ComputedStored "2025-10-09T10:30:00"));
        Out (ReverseRateLine "EUR" "USD" 1.08)].
Proof.
  exact (reverse_query_inverts_the_stored_rate "eur" "usd" logged_out
           (sample_env [] rates_eur_usd) rates_eur_usd
           {| rate := 1.08; updated_at := Some "2025-10-09T10:30:00" |}
           "2025-10-09T10:30:00"
           eq_refl eq_refl eq_refl eq_refl eq_refl eq_refl eq_refl).
Defined.

(** X10: when the table holds neither [A_B] nor [B_A], neither code is
    USD, and [A_USD] and [USD_B] are stored at rates other than 0, the
    query prints their product as a computed rate, and as the reverse
    quote the inverse of the product, or 0 should the product be 0. *)
Theorem query_bridges_through_usd a b state env rates source target :
  dict_in (normal a) _currency_registry = true ->
  dict_in (normal b) _currency_registry = true ->
  load_rates env = Ok rates ->
  dict_get (normal a ++ "_" ++ normal b) rates = None ->
  dict_get (normal b ++ "_" ++ normal a) rates = None ->
  normal a <> "USD" -> normal b <> "USD" ->
  dict_get (normal a ++ "_USD") rates = Some (Quote source) ->
  dict_get ("USD_" ++ normal b) rates = Some (Quote target) ->
  (rate source =? 0)%float = false ->
  (rate target =? 0)%float = false ->
  get_rate_command (rate_args a b) state env
  = [Out (RateLine (normal a) (normal b) (rate source * rate target)%float
            Computed);
     Out (ReverseRateLine (normal b) (normal a)
            (if (rate source * rate target =? 0)%float then 0%float
             else (1 / (rate source * rate target))%float))].
Proof.
  intros Ha Hb Hload Hdirect Hreverse Hna Hnb Hsource Htarget Hs Ht.
  unfold normal in *.
  eapply get_rate_command_find_rate; eauto.
  - apply find_rate_bridged; auto.
  - discriminate.
Qed.

Lemma query_bridges_through_usd_witness :
  get_rate_command (rate_args "eur" "rub") logged_out
    (sample_env [] rates_usd_bridge)
  = [Out (RateLine "EUR" "RUB" 97.2 Computed);
     Out (ReverseRateLine "RUB" "EUR" (1 / 97.2)%float)].
Proof.
  exact (query_bridges_through_usd "eur" "rub" logged_out
           (sample_env [] rates_usd_bridge) rates_usd_bridge
           {| rate := 1.08; updated_at := Some "2025-10-09T10:30:00" |}
           {| rate := 90; updated_at := Some "2025-10-09T10:30:00" |}
           eq_refl eq_refl eq_refl eq_refl eq_refl
           ltac:(intros H; vm_compute in H; discriminate H)
           ltac:(intros H; vm_compute in H; discriminate H)
           eq_refl eq_refl eq_refl eq_refl).
Defined.

(** The bridge with a rate of 0 on either leg falls through. *)
Lemma find_rate_zero_leg rates from_currency to_currency source target :
  dict_get (from_currency ++ "_" ++ to_currency) rates = None ->
  dict_get (to_currency ++ "_" ++ from_currency) rates = None ->
  dict_get (from_currency ++ "_USD") rates = Some (Quote source) ->
  dict_get ("USD_" ++ to_currency) rates = Some (Quote target) ->
  (rate source =? 0)%float = true \/ (rate target =? 0)%float = true ->
  find_rate rates from_currency to_currency
  = ([Out (RateUnavailable from_currency to_currency);
      Out (AvailableRates (filter not_metadata (dict_keys rates)))],
     Next tt).
Proof.
  intros Hdirect Hreverse Hsource Htarget Hzero. unfold find_rate.
  rewrite (dict_in_false _ _ Hdirect), (dict_in_false _ _ Hreverse).
  cbn [andb].
  destruct (negb (from_currency =? "USD") && negb (to_currency =? "USD"));
    [|reflexivity].
  rewrite (dict_in_true _ _ _ Hsource), (dict_in_true _ _ _ Htarget),
    (dict_item_ok _ _ _ Hsource), (dict_item_ok _ _ _ Htarget).
  cbn. destruct Hzero as [H | H]; rewrite H, ?andb_false_r; reflexivity.
Qed.

(** X11: when the table holds neither [A_B] nor [B_A] and the bridge does
    not apply, because a code is USD, because [A_USD] or [USD_B] is
    missing, or because one of the two is stored at rate 0, the query
    reports the rate unavailable and lists the keys of the table, in file
    order, without the metadata keys. *)
Theorem query_reports_unavailable a b state env rates :
  dict_in (normal a) _currency_registry = true ->
  dict_in (normal b) _currency_registry = true ->
  load_rates env = Ok rates ->
  dict_get (normal a ++ "_" ++ normal b) rates = None ->
  dict_get (normal b ++ "_" ++ normal a) rates = None ->
  normal a = "USD" \/ normal b = "USD"
  \/ dict_get (normal a ++ "_USD") rates = None
  \/ dict_get ("USD_" ++ normal b) rates = None
  \/ (exists source target,
        dict_get (normal a ++ "_USD") rates = Some (Quote source)
        /\ dict_get ("USD_" ++ normal b) rates = Some (Quote target)
        /\ ((rate source =? 0)%float = true
            \/ (rate target =? 0)%float = true)) ->
  get_rate_command (rate_args a b) state env
  = [Out (RateUnavailable (normal a) (normal b));
     Out (AvailableRates (filter not_metadata (dict_keys rates)))].
Proof.
  intros Ha Hb Hload Hdirect Hreverse Hbridge. unfold normal in *.
  eapply get_rate_command_find_rate; eauto.
  - destruct Hbridge as [H | [H | [H | [H | H]]]].
    + apply find_rate_unavailable; auto.
    + apply find_rate_unavailable; auto.
    + apply find_rate_unavailable; auto.
    + apply find_rate_unavailable; auto.
    + destruct H as (source & target & Hs & Ht & Hzero).
      eapply find_rate_zero_leg; eauto.
  - discriminate.
Qed.

Lemma query_reports_unavailable_witness :
  get_rate_command (rate_args "eur" "rub") logged_out
    (sample_env []
       [("EUR_USD", quote 0); ("source", Meta "ParserService");
        ("USD_RUB", quote 90)])
  = [Out (RateUnavailable "EUR" "RUB");
     Out (AvailableRates ["EUR_USD"; "USD_RUB"])].
Proof.
  apply (query_reports_unavailable "eur" "rub" logged_out
           (sample_env []
              [("EUR_USD", quote 0); ("source", Meta "ParserService");
               ("USD_RUB", quote 90)])
           [("EUR_USD", quote 0); ("source", Meta "ParserService");
            ("USD_RUB", quote 90)]);
    try reflexivity.
  right. right. right. right.
  exists {| rate := 0; updated_at := Some "2025-10-09T10:30:00" |},
    {| rate := 90; updated_at := Some "2025-10-09T10:30:00" |}.
  repeat split. left. reflexivity.
Defined.

End RateQuerySpec.

(** ** The table of rates the portfolio commands build *)

Module ExchangeTableSpec.

Import Currencies Models Interface Spec Session.
Import Samples PyFacts CurrenciesSpec RateSpec ValuationSpec.

Lemma dict_set_fresh {V} (k : string) (v : V) (d : dict V) :
  ~ In k (dict_keys d) -> dict_set k v d = (d ++ [(k, v)])%list.
Proof.
  induction d as [|[k0 v0] d IH]; cbn; intros Hk.
  - reflexivity.
  - destruct (String.eqb_spec k k0) as [->|_]; [tauto|].
    rewrite IH by tauto. reflexivity.
Qed.

Lemma build_exchange_rates_malformed rates acc :
  malformed rates ->
  build_exchange_rates rates acc
  = Raise (TypeError "string indices must be integers").
Proof.
  intros (k & s & Hin & Hk). revert acc.
  induction rates as [|[k0 v0] rates IH]; intros acc; [contradiction|].
  cbn [build_exchange_rates]. rewrite <- not_metadata_eq.
  destruct Hin as [[= -> ->] | Hin].
  - rewrite Hk. reflexivity.
  - destruct (not_metadata k0); [|auto].
    destruct v0 as [d|s0]; cbn; auto.
Qed.

Lemma build_exchange_rates_wellformed rates acc :
  NoDup (dict_keys acc ++ dict_keys rates) ->
  ~ malformed rates ->
  build_exchange_rates rates acc
  = Ok (acc ++ map (fun item => (fst item, pair_rate (snd item)))
                 (strip_metadata rates))%list.
Proof.
  revert acc. induction rates as [|[k v] rates IH]; intros acc Hnodup Hwf.
  - cbn. rewrite app_nil_r. reflexivity.
  - assert (Hwf' : ~ malformed rates).
    { intros (k' & s & Hin & Hk'). apply Hwf. exists k', s.
      split; [right; exact Hin | exact Hk']. }
    cbn [build_exchange_rates strip_metadata filter fst].
    fold (strip_metadata rates). rewrite <- not_metadata_eq.
    cbn [dict_keys map fst] in Hnodup. fold (dict_keys rates) in Hnodup.
    destruct (not_metadata k) eqn:Hk.
    + destruct v as [d|s].
      * cbn [item_rate rbind].
        rewrite dict_set_fresh.
        2:{ apply NoDup_remove_2 in Hnodup. intros Hin. apply Hnodup.
            apply in_or_app. left. exact Hin. }
        rewrite IH; [| |exact Hwf'].
        -- cbn [map fst snd pair_rate]. rewrite <- app_assoc. reflexivity.
        -- unfold dict_keys in *. rewrite map_app. cbn [map fst].
           rewrite <- app_assoc. exact Hnodup.
      * exfalso. apply Hwf. exists k, s. split; [left; reflexivity | exact Hk].
    + apply IH; [|exact Hwf'].
      apply NoDup_remove_1 in Hnodup. exact Hnodup.
Qed.

(** X12: the table of rates that the valuation and the trades build from
    the loaded rates holds, in file order, the rate of every entry other
    than [source] and [last_refresh]; building it raises a [TypeError]
    exactly when one of those entries is a string instead of an object. *)
Theorem build_exchange_rates_keeps_the_pairs rates :
  NoDup (dict_keys rates) ->
  (malformed rates ->
   exists message,
     build_exchange_rates rates [] = Raise (TypeError message))
  /\ (~ malformed rates ->
      build_exchange_rates rates []
      = Ok (map (fun item => (fst item, pair_rate (snd item)))
              (strip_metadata rates))).
Proof.
  intros Hnodup. split.
  - intros Hbad. eexists. apply build_exchange_rates_malformed. exact Hbad.
  - intros Hwf. apply (build_exchange_rates_wellformed rates []); assumption.
Qed.

Lemma build_exchange_rates_keeps_the_pairs_witness :
  (malformed rates_btc_usd ->
   exists message,
     build_exchange_rates rates_btc_usd [] = Raise (TypeError message))
  /\ (~ malformed rates_btc_usd ->
      build_exchange_rates rates_btc_usd []
      = Ok (map (fun item => (fst item, pair_rate (snd item)))
              (strip_metadata rates_btc_usd))).
Proof.
  apply (build_exchange_rates_keeps_the_pairs rates_btc_usd).
  repeat constructor; cbn; intuition discriminate.
Defined.

(** X13: with a rates file in which a pair entry is a string, the
    valuation of a portfolio that is not empty prints its header and then
    the error, with no row and no total. *)
Theorem valuation_of_a_malformed_table
    args state env user portfolio rates base :
  current_user state = Some user ->
  find_portfolio_by_user_id (load_portfolios env) (user_id user)
  = Some portfolio ->
  wallets portfolio <> [] ->
  load_rates env = Ok rates ->
  malformed rates ->
  base_of args base ->
  exists message,
    show_portfolio_command args state env
    = [Out (PortfolioHeader (username user) base);
       Out (ShowError (TypeError message))].
Proof.
  intros Huser Hfind Hwallets Hload Hbad Hbase.
  unfold show_portfolio_command.
  assert (Hb : match arg_base args with
               | Some b => b
               | None => ArgStr "USD"
               end = ArgStr base).
  { destruct Hbase as [-> | [-> ->]]; reflexivity. }
  rewrite Hb, Huser. cbn. rewrite Hfind. cbn. rewrite Hload.
  unfold from_dict.
  destruct (wallets portfolio) as [|item items] eqn:Hw; [contradiction|].
  cbn -[wallets_loop build_exchange_rates].
  rewrite (build_exchange_rates_malformed _ _ Hbad). eexists. reflexivity.
Qed.

Lemma valuation_of_a_malformed_table_witness :
  exists message,
    show_portfolio_command (base_args "USD") logged_in
      (sample_env usd_and_btc [("BTC_USD", Meta "50000")])
    = [Out (PortfolioHeader "alice" "USD");
       Out (ShowError (TypeError message))].
Proof.
  apply (valuation_of_a_malformed_table (base_args "USD") logged_in
           (sample_env usd_and_btc [("BTC_USD", Meta "50000")]) alice
           (portfolio_of usd_and_btc) [("BTC_USD", Meta "50000")] "USD").
  - reflexivity.
  - reflexivity.
  - discriminate.
  - reflexivity.
  - exists "BTC_USD", "50000". split; [left; reflexivity | reflexivity].
  - left. reflexivity.
Defined.

End ExchangeTableSpec.

(** ** What a trade writes *)

Module SessionSpec.

Import Currencies Models Interface Spec Session.
Import Samples MoreSamples PyFacts CurrenciesSpec RateSpec ValuationSpec
  MetadataSpec TradeSpec ExchangeTableSpec.

Lemma find_portfolio_owner portfolios uid portfolio :
  find_portfolio_by_user_id portfolios uid = Some portfolio ->
  owner portfolio = uid.
Proof.
  induction portfolios as [|p portfolios IH]; cbn; [discriminate|].
  destruct (Z.eqb_spec (owner p) uid) as [Hp|_].
  - intros [= <-]. exact Hp.
  - exact IH.
Qed.

(** The replacement loop: the portfolio put in place is the one found
    afterwards, and the portfolios of the other users are found as
    before. *)
Lemma find_after_replace portfolios uid portfolio data uid' :
  find_portfolio_by_user_id portfolios uid = Some portfolio ->
  owner data = uid ->
  find_portfolio_by_user_id (replace_portfolio portfolios uid data) uid'
  = if (uid' =? uid)%Z then Some data
    else find_portfolio_by_user_id portfolios uid'.
Proof.
  intros Hfind Hdata.
  induction portfolios as [|p portfolios IH]; cbn in *; [discriminate|].
  destruct (Z.eqb_spec (owner p) uid) as [Hp|Hp].
  - cbn. rewrite Hdata, Hp.
    destruct (Z.eqb_spec uid uid') as [->|Hne].
    + rewrite Z.eqb_refl. reflexivity.
    + destruct (Z.eqb_spec uid' uid); [congruence | reflexivity].
  - cbn. destruct (Z.eqb_spec (owner p) uid') as [Hp'|Hp'].
    + destruct (Z.eqb_spec uid' uid); [congruence | reflexivity].
    + apply IH. exact Hfind.
Qed.

Lemma replace_portfolio_length portfolios uid data :
  List.length (replace_portfolio portfolios uid data)
  = List.length portfolios.
Proof.
  induction portfolios as [|p portfolios IH]; cbn; [reflexivity|].
  destruct (owner p =? uid)%Z; cbn; congruence.
Qed.

Lemma get_or_create_wallet_spec portfolio code :
  let (portfolio', wallet) := get_or_create_wallet portfolio code in
  owner portfolio' = owner portfolio
  /\ balance wallet = held portfolio code
  /\ dict_get code (wallets portfolio') = Some wallet
  /\ forall c, c <> code ->
               dict_get c (wallets portfolio') = dict_get c (wallets portfolio).
Proof.
  unfold get_or_create_wallet, held, get_wallet.
  destruct (dict_get code (wallets portfolio)) as [w|] eqn:Hget.
  - repeat split; auto.
  - cbn [owner wallets balance]. repeat split.
    + rewrite dict_get_set, String.eqb_refl. reflexivity.
    + intros c Hc. rewrite dict_get_set.
      apply String.eqb_neq in Hc. rewrite Hc. reflexivity.
Qed.

(** What a purchase that passes every check prints and writes. *)
Lemma buy_command_success
    float_of_str args state env s a x user portfolio rates ex :
  arg_currency args = Some (ArgStr s) ->
  dict_in (normal s) _currency_registry = true ->
  arg_amount args = Some a ->
  falsy (Some a) = false ->
  float_of_arg float_of_str a = Some x ->
  (x <=? 0)%float = false ->
  current_user state = Some user ->
  find_portfolio_by_user_id (load_portfolios env) (user_id user)
  = Some portfolio ->
  load_rates env = Ok rates ->
  build_exchange_rates rates [] = Ok ex ->
  let code := normal s in
  let created := get_or_create_wallet portfolio code in
  let wallet' :=
    {| currency_code := currency_code (snd created);
       balance := (balance (snd created) + x)%float |} in
  buy_command float_of_str args state env
  = (SavePortfolios
       (replace_portfolio (load_portfolios env) (user_id user)
          (set_wallet (fst created) code wallet'))
       :: (if (0 <? estimate_rate ex code)%float
           then [Out (BuyDoneAtRate x code (estimate_rate ex code));
                 Out (EstimatedCost (x * estimate_rate ex code)%float)]
           else [Out (BuyDone x code)])
       ++ [Out PortfolioChanges;
           Out (BalanceChange code (balance (snd created))
                  (balance (snd created) + x)%float)])%list.
Proof.
  intros Hcur Hreg Hamt Hfalsy Hfloat Hpos Huser Hfind Hload Hbuild.
  unfold normal in *. cbv zeta.
  destruct (registry_code_not_empty s Hreg) as [Hs _].
  destruct (registry_get_currency s Hreg) as [c Hc].
  unfold buy_command. rewrite Hcur, Hamt.
  replace (falsy (Some (ArgStr s))) with false by (symmetry; exact Hs).
  rewrite Hfalsy. cbn. rewrite Hc. cbn. rewrite Hfloat, Huser. cbn.
  rewrite Hpos. cbn. rewrite Hfind. cbn. unfold from_dict, to_dict.
  destruct (get_or_create_wallet portfolio (strip (upper s))) as [p' w].
  cbn. rewrite Hload. cbn. rewrite Hbuild. cbn.
  unfold deposit. rewrite Hpos. cbn. unfold estimate_rate.
  destruct (dict_get (strip (upper s) ++ "_USD") ex) as [r|].
  - destruct (0 <? r)%float; reflexivity.
  - reflexivity.
Qed.

(** X14: a purchase of a positive amount of a registry currency by the
    logged-in user, with a rates table that loads, is written once: in the
    portfolios file the user's portfolio then holds the former balance of
    that currency, 0 if there was no wallet, plus the amount; its other
    wallets and the portfolios of the other users are as they were; the
    purchase is carried out with or without a rate for the currency. *)
Theorem purchase_is_deposited
    float_of_str args state env s a x user portfolio rates ex :
  arg_currency args = Some (ArgStr s) ->
  dict_in (normal s) _currency_registry = true ->
  arg_amount args = Some a ->
  falsy (Some a) = false ->
  float_of_arg float_of_str a = Some x ->
  (x <=? 0)%float = false ->
  current_user state = Some user ->
  find_portfolio_by_user_id (load_portfolios env) (user_id user)
  = Some portfolio ->
  load_rates env = Ok rates ->
  build_exchange_rates rates [] = Ok ex ->
  exists store' portfolio',
    saved (buy_command float_of_str args state env) = [store']
    /\ find_portfolio_by_user_id store' (user_id user) = Some portfolio'
    /\ held portfolio' (normal s) = (held portfolio (normal s) + x)%float
    /\ (forall c, c <> normal s ->
                  get_wallet portfolio' c = get_wallet portfolio c)
    /\ (forall uid, uid <> user_id user ->
                    find_portfolio_by_user_id store' uid
                    = find_portfolio_by_user_id (load_portfolios env) uid)
    /\ In (Out (BalanceChange (normal s) (held portfolio (normal s))
                  (held portfolio (normal s) + x)%float))
         (buy_command float_of_str args state env).
Proof.
  intros Hcur Hreg Hamt Hfalsy Hfloat Hpos Huser Hfind Hload Hbuild.
  rewrite (buy_command_success _ _ _ _ _ _ _ _ _ _ _
             Hcur Hreg Hamt Hfalsy Hfloat Hpos Huser Hfind Hload Hbuild).
  cbv zeta.
  pose proof (get_or_create_wallet_spec portfolio (normal s)) as Hgoc.
  destruct (get_or_create_wallet portfolio (normal s)) as [p' w].
  destruct Hgoc as (Howner & Hbal & Hget & Hother).
  cbn [fst snd].
  pose proof (find_portfolio_owner _ _ _ Hfind) as Hown.
  eexists _, _. split; [|split; [|split; [|split; [|split]]]].
  - cbn [saved]. destruct (0 <? estimate_rate ex (normal s))%float;
      reflexivity.
  - rewrite (find_after_replace _ _ _ _ (user_id user) Hfind)
      by (cbn [set_wallet owner]; congruence).
    rewrite Z.eqb_refl. reflexivity.
  - unfold held at 1, get_wallet. cbn [set_wallet wallets].
    rewrite dict_get_set, String.eqb_refl. cbn [balance]. congruence.
  - intros c Hc. unfold get_wallet. cbn [set_wallet wallets].
    rewrite dict_get_set. pose proof Hc as Hc'.
    apply String.eqb_neq in Hc'. rewrite Hc'. apply Hother. exact Hc.
  - intros uid Hne.
    rewrite (find_after_replace _ _ _ _ uid Hfind)
      by (cbn [set_wallet owner]; congruence).
    apply Z.eqb_neq in Hne. rewrite Hne. reflexivity.
  - rewrite Hbal. right. apply in_or_app. right. right. left. reflexivity.
Qed.

Lemma purchase_is_deposited_witness :
  exists store' portfolio',
    saved (buy_command sample_float (trade_args "btc" "0.05") logged_in
             {| portfolios_file := [portfolio_of_bob; portfolio_of usd_and_btc];
                rates_file := Ok rates_btc_usd |})
    = [store']
    /\ find_portfolio_by_user_id store' (user_id alice) = Some portfolio'
    /\ held portfolio' (normal "btc")
       = (held (portfolio_of usd_and_btc) (normal "btc") + 0.05)%float
    /\ (forall c, c <> normal "btc" ->
                  get_wallet portfolio' c
                  = get_wallet (portfolio_of usd_and_btc) c)
    /\ (forall uid, uid <> user_id alice ->
                    find_portfolio_by_user_id store' uid
                    = find_portfolio_by_user_id
                        (load_portfolios
                           {| portfolios_file :=
                                [portfolio_of_bob; portfolio_of usd_and_btc];
                              rates_file := Ok rates_btc_usd |}) uid)
    /\ In (Out (BalanceChange (normal "btc")
                  (held (portfolio_of usd_and_btc) (normal "btc"))
                  (held (portfolio_of usd_and_btc) (normal "btc") + 0.05)%float))
         (buy_command sample_float (trade_args "btc" "0.05") logged_in
            {| portfolios_file := [portfolio_of_bob; portfolio_of usd_and_btc];
               rates_file := Ok rates_btc_usd |}).
Proof.
  exact (purchase_is_deposited sample_float (trade_args "btc" "0.05")
           logged_in
           {| portfolios_file := [portfolio_of_bob; portfolio_of usd_and_btc];
              rates_file := Ok rates_btc_usd |}
           "btc" (ArgStr "0.05") 0.05%float alice (portfolio_of usd_and_btc)
           rates_btc_usd [("BTC_USD", 50000%float)]
           eq_refl eq_refl eq_refl eq_refl eq_refl eq_refl eq_refl eq_refl
           eq_refl eq_refl).
Defined.

(** What a sale that passes every check prints and writes. *)
Lemma sell_command_success
    float_of_str args state env s a x user portfolio wallet rates ex :
  arg_currency args = Some (ArgStr s) ->
  dict_in (normal s) _currency_registry = true ->
  arg_amount args = Some a ->
  falsy (Some a) = false ->
  float_of_arg float_of_str a = Some x ->
  (x <=? 0)%float = false ->
  current_user state = Some user ->
  find_portfolio_by_user_id (load_portfolios env) (user_id user)
  = Some portfolio ->
  get_wallet portfolio (normal s) = Some wallet ->
  (balance wallet <? x)%float = false ->
  load_rates env = Ok rates ->
  build_exchange_rates rates [] = Ok ex ->
  let code := normal s in
  let wallet' :=
    {| currency_code := currency_code wallet;
       balance := (balance wallet - x)%float |} in
  sell_command float_of_str args state env
  = (SavePortfolios
       (replace_portfolio (load_portfolios env) (user_id user)
          (set_wallet portfolio code wallet'))
       :: (if (0 <? estimate_rate ex code)%float
           then [Out (SellDoneAtRate x code (estimate_rate ex code));
                 Out (EstimatedRevenue (x * estimate_rate ex code)%float)]
           else [Out (SellDone x code)])
       ++ [Out PortfolioChanges;
           Out (BalanceChange code (balance wallet)
                  (balance wallet - x)%float)])%list.
Proof.
  intros Hcur Hreg Hamt Hfalsy Hfloat Hpos Huser Hfind Hwallet Hlt Hload
    Hbuild.
  unfold normal in *. cbv zeta.
  destruct (registry_code_not_empty s Hreg) as [Hs _].
  destruct (registry_get_currency s Hreg) as [c Hc].
  unfold sell_command. rewrite Hcur, Hamt.
  replace (falsy (Some (ArgStr s))) with false by (symmetry; exact Hs).
  rewrite Hfalsy. cbn. rewrite Hc. cbn. rewrite Hfloat, Huser. cbn.
  rewrite Hpos. cbn. rewrite Hfind. cbn. unfold from_dict, to_dict.
  rewrite Hwallet. cbn. rewrite Hload. cbn. rewrite Hbuild. cbn.
  unfold withdraw. rewrite Hpos, Hlt. cbn. unfold estimate_rate.
  destruct (dict_get (strip (upper s) ++ "_USD") ex) as [r|].
  - destruct (0 <? r)%float; reflexivity.
  - reflexivity.
Qed.

(** X15: a sale by the logged-in user of a positive amount, not above the
    balance, of a registry currency the user holds, with a rates table
    that loads, is written once: the wallet stays in the portfolio, with
    the former balance minus the amount, which is not negative; the
    other wallets and the portfolios of the other users are as they
    were. *)
Theorem sale_is_withdrawn
    float_of_str args state env s a x user portfolio wallet rates ex :
  arg_currency args = Some (ArgStr s) ->
  dict_in (normal s) _currency_registry = true ->
  arg_amount args = Some a ->
  falsy (Some a) = false ->
  float_of_arg float_of_str a = Some x ->
  (x <=? 0)%float = false ->
  current_user state = Some user ->
  find_portfolio_by_user_id (load_portfolios env) (user_id user)
  = Some portfolio ->
  get_wallet portfolio (normal s) = Some wallet ->
  (balance wallet <? x)%float = false ->
  load_rates env = Ok rates ->
  build_exchange_rates rates [] = Ok ex ->
  exists store' portfolio',
    saved (sell_command float_of_str args state env) = [store']
    /\ find_portfolio_by_user_id store' (user_id user) = Some portfolio'
    /\ get_wallet portfolio' (normal s)
       = Some {| currency_code := currency_code wallet;
                 balance := (balance wallet - x)%float |}
    /\ (balance wallet - x <? 0)%float = false
    /\ (forall c, c <> normal s ->
                  get_wallet portfolio' c = get_wallet portfolio c)
    /\ (forall uid, uid <> user_id user ->
                    find_portfolio_by_user_id store' uid
                    = find_portfolio_by_user_id (load_portfolios env) uid).
Proof.
  intros Hcur Hreg Hamt Hfalsy Hfloat Hpos Huser Hfind Hwallet Hlt Hload
    Hbuild.
  rewrite (sell_command_success _ _ _ _ _ _ _ _ _ _ _ _
             Hcur Hreg Hamt Hfalsy Hfloat Hpos Huser Hfind Hwallet Hlt
             Hload Hbuild).
  cbv zeta.
  pose proof (find_portfolio_owner _ _ _ Hfind) as Hown.
  eexists _, _. split; [|split; [|split; [|split; [|split]]]].
  - cbn [saved]. destruct (0 <? estimate_rate ex (normal s))%float;
      reflexivity.
  - rewrite (find_after_replace _ _ _ _ (user_id user) Hfind)
      by (cbn [set_wallet owner]; congruence).
    rewrite Z.eqb_refl. reflexivity.
  - unfold get_wallet. cbn [set_wallet wallets].
    rewrite dict_get_set, String.eqb_refl. reflexivity.
  - apply FloatFacts.sub_not_negative; assumption.
  - intros c Hc. unfold get_wallet. cbn [set_wallet wallets].
    rewrite dict_get_set. apply String.eqb_neq in Hc. rewrite Hc.
    reflexivity.
  - intros uid Hne.
    rewrite (find_after_replace _ _ _ _ uid Hfind)
      by (cbn [set_wallet owner]; congruence).
    apply Z.eqb_neq in Hne. rewrite Hne. reflexivity.
Qed.

Lemma sale_is_withdrawn_witness :
  exists store' portfolio',
    saved (sell_command sample_float (trade_args "usd" "100") logged_in
             (sample_env usd_and_btc rates_btc_usd))
    = [store']
    /\ find_portfolio_by_user_id store' (user_id alice) = Some portfolio'
    /\ get_wallet portfolio' (normal "usd")
       = Some {| currency_code := "USD"; balance := (100 - 100)%float |}
    /\ (100 - 100 <? 0)%float = false
    /\ (forall c, c <> normal "usd" ->
                  get_wallet portfolio' c
                  = get_wallet (portfolio_of usd_and_btc) c)
    /\ (forall uid, uid <> user_id alice ->
                    find_portfolio_by_user_id store' uid
                    = find_portfolio_by_user_id
                        (load_portfolios
                           (sample_env usd_and_btc rates_btc_usd)) uid).
Proof.
  exact (sale_is_withdrawn sample_float (trade_args "usd" "100") logged_in
           (sample_env usd_and_btc rates_btc_usd)
           "usd" (ArgStr "100") 100%float alice (portfolio_of usd_and_btc)
           {| currency_code := "USD"; balance := 100 |}
           rates_btc_usd [("BTC_USD", 50000%float)]
           eq_refl eq_refl eq_refl eq_refl eq_refl eq_refl eq_refl eq_refl
           eq_refl eq_refl eq_refl eq_refl).
Defined.

(** A trade that writes has loaded the rates and built its table. *)
Lemma buy_command_saved_needs_rates float_of_str args state env :
  saved (buy_command float_of_str args state env) <> [] ->
  exists rates ex,
    load_rates env = Ok rates /\ build_exchange_rates rates [] = Ok ex.
Proof.
  unfold buy_command. run_trade; intros H;
    first [ exfalso; apply H; reflexivity
          | eexists _, _; split; [reflexivity | eassumption] ].
Qed.

Lemma sell_command_saved_needs_rates float_of_str args state env :
  saved (sell_command float_of_str args state env) <> [] ->
  exists rates ex,
    load_rates env = Ok rates /\ build_exchange_rates rates [] = Ok ex.
Proof.
  unfold sell_command. run_trade; intros H;
    first [ exfalso; apply H; reflexivity
          | eexists _, _; split; [reflexivity | eassumption] ].
Qed.

Lemma no_rates_table_spec env rates ex :
  no_rates_table env ->
  load_rates env = Ok rates ->
  build_exchange_rates rates [] = Ok ex ->
  False.
Proof.
  intros [[e He] | (rates' & Hload & Hbad)] Hrates Hbuild.
  - congruence.
  - assert (rates' = rates) as -> by congruence.
    rewrite (build_exchange_rates_malformed _ [] Hbad) in Hbuild.
    discriminate.
Qed.

(** X16: the rates are only used to print an estimate, yet a trade needs
    them: when the rates file does not load, or one of its pair entries
    is malformed, neither a purchase nor a sale writes the portfolios
    file or reports a trade, whatever the arguments. *)
Theorem trade_needs_a_rates_table float_of_str args state env :
  no_rates_table env ->
  saved (buy_command float_of_str args state env) = []
  /\ reports_trade (buy_command float_of_str args state env) = false
  /\ saved (sell_command float_of_str args state env) = []
  /\ reports_trade (sell_command float_of_str args state env) = false.
Proof.
  intros Hno.
  assert (Hbuy : saved (buy_command float_of_str args state env) = []).
  { destruct (saved (buy_command float_of_str args state env)) eqn:E;
      [reflexivity|].
    destruct (buy_command_saved_needs_rates float_of_str args state env)
      as (rates & ex & Hload & Hbuild); [rewrite E; discriminate|].
    destruct (no_rates_table_spec _ _ _ Hno Hload Hbuild). }
  assert (Hsell : saved (sell_command float_of_str args state env) = []).
  { destruct (saved (sell_command float_of_str args state env)) eqn:E;
      [reflexivity|].
    destruct (sell_command_saved_needs_rates float_of_str args state env)
      as (rates & ex & Hload & Hbuild); [rewrite E; discriminate|].
    destruct (no_rates_table_spec _ _ _ Hno Hload Hbuild). }
  repeat split; auto.
  - destruct (buy_command_cases float_of_str args state env)
      as [[_ H] | (s & x & user & p & p' & w & w' & H)]; [exact H|].
    decompose [and] H. congruence.
  - destruct (sell_command_cases float_of_str args state env)
      as [[_ H] | (s & x & user & p & w & w' & H)]; [exact H|].
    decompose [and] H. congruence.
Qed.

Lemma trade_needs_a_rates_table_witness :
  saved (buy_command sample_float (trade_args "btc" "0.05") logged_in
           (sample_env usd_and_btc [("BTC_USD", Meta "50000")])) = []
  /\ reports_trade
       (buy_command sample_float (trade_args "btc" "0.05") logged_in
          (sample_env usd_and_btc [("BTC_USD", Meta "50000")])) = false
  /\ saved (sell_command sample_float (trade_args "btc" "0.05") logged_in
              (sample_env usd_and_btc [("BTC_USD", Meta "50000")])) = []
  /\ reports_trade
       (sell_command sample_float (trade_args "btc" "0.05") logged_in
          (sample_env usd_and_btc [("BTC_USD", Meta "50000")])) = false.
Proof.
  apply (trade_needs_a_rates_table sample_float (trade_args "btc" "0.05")
           logged_in (sample_env usd_and_btc [("BTC_USD", Meta "50000")])).
  right. exists [("BTC_USD", Meta "50000")]. split; [reflexivity|].
  exists "BTC_USD", "50000". split; [left; reflexivity | reflexivity].
Defined.

Lemma get_or_create_wallet_owner portfolio code portfolio' wallet :
  get_or_create_wallet portfolio code = (portfolio', wallet) ->
  owner portfolio' = owner portfolio.
Proof.
  intros H. pose proof (get_or_create_wallet_spec portfolio code) as Hs.
  rewrite H in Hs. tauto.
Qed.

Lemma other_user_spec state uid user :
  other_user state uid = true ->
  current_user state = Some user ->
  (uid =? user_id user)%Z = false.
Proof.
  unfold other_user. intros H Huser. rewrite Huser in H.
  apply negb_true_iff, Z.eqb_neq in H. apply Z.eqb_neq. congruence.
Qed.

(** X17: whatever its arguments and whether it succeeds or not, a
    purchase or a sale leaves the portfolio of every user other than the
    one logged in as it was in the portfolios file, and the file holds as
    many portfolios as before. *)
Theorem trade_leaves_other_users_alone float_of_str args state env uid t :
  other_user state uid = true ->
  t = buy_command float_of_str args state env
  \/ t = sell_command float_of_str args state env ->
  find_portfolio_by_user_id (store_after (load_portfolios env) t) uid
  = find_portfolio_by_user_id (load_portfolios env) uid
  /\ List.length (store_after (load_portfolios env) t)
     = List.length (load_portfolios env).
Proof.
  intros Hother [-> | ->]; unfold store_after.
  - destruct (buy_command_cases float_of_str args state env)
      as [[Hs _] | (s & x & user & p & p' & w & w' & _ & _ & _ & _ & Huser
                    & Hfind & Hgoc & _ & _ & Hs)];
      rewrite Hs; cbn [last]; [split; reflexivity|].
    split; [|apply replace_portfolio_length].
    rewrite (find_after_replace _ _ _ _ uid Hfind).
    + rewrite (other_user_spec _ _ _ Hother Huser). reflexivity.
    + cbn [set_wallet owner].
      rewrite (get_or_create_wallet_owner _ _ _ _ Hgoc).
      exact (find_portfolio_owner _ _ _ Hfind).
  - destruct (sell_command_cases float_of_str args state env)
      as [[Hs _] | (s & x & user & p & w & w' & _ & _ & _ & _ & Huser
                    & Hfind & _ & _ & _ & Hs)];
      rewrite Hs; cbn [last]; [split; reflexivity|].
    split; [|apply replace_portfolio_length].
    rewrite (find_after_replace _ _ _ _ uid Hfind).
    + rewrite (other_user_spec _ _ _ Hother Huser). reflexivity.
    + cbn [set_wallet owner]. exact (find_portfolio_owner _ _ _ Hfind).
Qed.

Lemma trade_leaves_other_users_alone_witness :
  find_portfolio_by_user_id
    (store_after
       (load_portfolios
          {| portfolios_file := [portfolio_of usd_and_btc; portfolio_of_bob];
             rates_file := Ok rates_btc_usd |})
       (sell_command sample_float (trade_args "btc" "0.05") logged_in
          {| portfolios_file := [portfolio_of usd_and_btc; portfolio_of_bob];
             rates_file := Ok rates_btc_usd |}))
    (owner portfolio_of_bob)
  = find_portfolio_by_user_id
      (load_portfolios
         {| portfolios_file := [portfolio_of usd_and_btc; portfolio_of_bob];
            rates_file := Ok rates_btc_usd |})
      (owner portfolio_of_bob)
  /\ List.length
       (store_after
          (load_portfolios
             {| portfolios_file :=
                  [portfolio_of usd_and_btc; portfolio_of_bob];
                rates_file := Ok rates_btc_usd |})
          (sell_command sample_float (trade_args "btc" "0.05") logged_in
             {| portfolios_file :=
                  [portfolio_of usd_and_btc; portfolio_of_bob];
                rates_file := Ok rates_btc_usd |}))
     = List.length
         (load_portfolios
            {| portfolios_file :=
                 [portfolio_of usd_and_btc; portfolio_of_bob];
               rates_file := Ok rates_btc_usd |}).
Proof.
  apply (trade_leaves_other_users_alone sample_float
           (trade_args "btc" "0.05") logged_in
           {| portfolios_file := [portfolio_of usd_and_btc; portfolio_of_bob];
              rates_file := Ok rates_btc_usd |}
           (owner portfolio_of_bob)).
  - reflexivity.
  - right. reflexivity.
Defined.

Lemma dict_get_In {V} (k : string) (v : V) (d : dict V) :
  dict_get k d = Some v -> In (k, v) d.
Proof.
  induction d as [|[k0 v0] d IH]; cbn; [discriminate|].
  destruct (String.eqb_spec k k0) as [->|_].
  - intros [= ->]. left. reflexivity.
  - intros H. right. exact (IH H).
Qed.

(** X18: a purchase followed by a valuation in the same session: the
    valuation reads the portfolio the purchase wrote, so its breakdown
    has a row for the currency bought, with the former balance plus the
    amount, and its total is the sum over the wallets of the written
    portfolio. *)
Theorem purchase_shows_in_the_valuation
    float_of_str args shown state env s a x user portfolio rates ex base :
  arg_currency args = Some (ArgStr s) ->
  dict_in (normal s) _currency_registry = true ->
  arg_amount args = Some a ->
  falsy (Some a) = false ->
  float_of_arg float_of_str a = Some x ->
  (x <=? 0)%float = false ->
  current_user state = Some user ->
  find_portfolio_by_user_id (load_portfolios env) (user_id user)
  = Some portfolio ->
  load_rates env = Ok rates ->
  build_exchange_rates rates [] = Ok ex ->
  base_of shown base ->
  let env' := env_after env (buy_command float_of_str args state env) in
  exists portfolio' wallet',
    find_portfolio_by_user_id (load_portfolios env') (user_id user)
    = Some portfolio'
    /\ get_wallet portfolio' (normal s) = Some wallet'
    /\ balance wallet' = (held portfolio (normal s) + x)%float
    /\ In (breakdown_row base ex (normal s, wallet'))
         (show_portfolio_command shown state env')
    /\ In (Out (Total (total_of (map (contributed_value base ex)
                                   (wallets portfolio'))) base))
         (show_portfolio_command shown state env').
Proof.
  intros Hcur Hreg Hamt Hfalsy Hfloat Hpos Huser Hfind Hload Hbuild Hbase.
  cbv zeta.
  pose proof (buy_command_success _ _ _ _ _ _ _ _ _ _ _
                Hcur Hreg Hamt Hfalsy Hfloat Hpos Huser Hfind Hload Hbuild)
    as Hbuy.
  cbv zeta in Hbuy.
  pose proof (get_or_create_wallet_spec portfolio (normal s)) as Hgoc.
  destruct (get_or_create_wallet portfolio (normal s)) as [p' w].
  destruct Hgoc as (Howner & Hbal & Hget & Hother).
  cbn [fst snd] in Hbuy.
  pose proof (find_portfolio_owner _ _ _ Hfind) as Hown.
  set (w' := {| currency_code := currency_code w;
                balance := (balance w + x)%float |}) in *.
  assert (Hstore :
            load_portfolios
              (env_after env (buy_command float_of_str args state env))
            = replace_portfolio (load_portfolios env) (user_id user)
                (set_wallet p' (normal s) w')).
  { unfold load_portfolios, env_after, store_after.
    cbn [portfolios_file]. rewrite Hbuy. cbn [saved].
    destruct (0 <? estimate_rate ex (normal s))%float; reflexivity. }
  assert (Hfind' :
            find_portfolio_by_user_id
              (load_portfolios
                 (env_after env (buy_command float_of_str args state env)))
              (user_id user)
            = Some (set_wallet p' (normal s) w')).
  { rewrite Hstore.
    rewrite (find_after_replace _ _ _ _ (user_id user) Hfind)
      by (cbn [set_wallet owner]; congruence).
    rewrite Z.eqb_refl. reflexivity. }
  assert (Hw : get_wallet (set_wallet p' (normal s) w') (normal s)
               = Some w').
  { unfold get_wallet. cbn [set_wallet wallets].
    rewrite dict_get_set, String.eqb_refl. reflexivity. }
  exists (set_wallet p' (normal s) w'), w'.
  split; [exact Hfind'|]. split; [exact Hw|].
  split; [cbn [w' balance]; congruence|].
  assert (Hin : In (normal s, w')
                  (wallets (set_wallet p' (normal s) w'))).
  { apply dict_get_In. exact Hw. }
  rewrite (show_portfolio_report shown state _ user
             (set_wallet p' (normal s) w') rates ex base
             Huser Hfind'); auto.
  - split.
    + right. apply in_or_app. left.
      apply (in_map (breakdown_row base ex)). exact Hin.
    + right. apply in_or_app. right. right. left. reflexivity.
  - intros Hnil. rewrite Hnil in Hin. destruct Hin.
Qed.

Lemma purchase_shows_in_the_valuation_witness :
  exists portfolio' wallet',
    find_portfolio_by_user_id
      (load_portfolios
         (env_after (sample_env usd_and_btc rates_btc_usd)
            (buy_command sample_float (trade_args "btc" "0.05") logged_in
               (sample_env usd_and_btc rates_btc_usd))))
      (user_id alice)
    = Some portfolio'
    /\ get_wallet portfolio' (normal "btc") = Some wallet'
    /\ balance wallet'
       = (held (portfolio_of usd_and_btc) (normal "btc") + 0.05)%float
    /\ In (breakdown_row "USD" [("BTC_USD", 50000%float)]
             (normal "btc", wallet'))
         (show_portfolio_command (base_args "USD") logged_in
            (env_after (sample_env usd_and_btc rates_btc_usd)
               (buy_command sample_float (trade_args "btc" "0.05") logged_in
                  (sample_env usd_and_btc rates_btc_usd))))
    /\ In (Out (Total (total_of (map (contributed_value "USD"
                                        [("BTC_USD", 50000%float)])
                                   (wallets portfolio'))) "USD"))
         (show_portfolio_command (base_args "USD") logged_in
            (env_after (sample_env usd_and_btc rates_btc_usd)
               (buy_command sample_float (trade_args "btc" "0.05") logged_in
                  (sample_env usd_and_btc rates_btc_usd)))).
Proof.
  exact (purchase_shows_in_the_valuation sample_float
           (trade_args "btc" "0.05") (base_args "USD") logged_in
           (sample_env usd_and_btc rates_btc_usd)
           "btc" (ArgStr "0.05") 0.05%float alice (portfolio_of usd_and_btc)
           rates_btc_usd [("BTC_USD", 50000%float)] "USD"
           eq_refl eq_refl eq_refl eq_refl eq_refl eq_refl eq_refl eq_refl
           eq_refl eq_refl (or_introl eq_refl)).
Defined.

(** X19: the three portfolio commands check the login before they read
    a file: in a session without a user the valuation prints only the
    request to log in, a purchase and a sale print the same whatever the
    files hold, and none of them writes. *)
Theorem logged_out_commands_read_no_file
    float_of_str args state env env' :
  current_user state = None ->
  show_portfolio_command args state env = [Out LoginFirst]
  /\ buy_command float_of_str args state env
     = buy_command float_of_str args state env'
  /\ sell_command float_of_str args state env
     = sell_command float_of_str args state env'
  /\ saved (buy_command float_of_str args state env) = []
  /\ saved (sell_command float_of_str args state env) = [].
Proof.
  intros Hout. split; [|split; [|split; [|split]]].
  - unfold show_portfolio_command. rewrite Hout. reflexivity.
  - unfold buy_command. rewrite Hout. run_trade; reflexivity.
  - unfold sell_command. rewrite Hout. run_trade; reflexivity.
  - unfold buy_command. rewrite Hout. run_trade; reflexivity.
  - unfold sell_command. rewrite Hout. run_trade; reflexivity.
Qed.

Lemma logged_out_commands_read_no_file_witness :
  show_portfolio_command (trade_args "btc" "0.05") logged_out
    (sample_env usd_and_btc rates_btc_usd) = [Out LoginFirst]
  /\ buy_command sample_float (trade_args "btc" "0.05") logged_out
       (sample_env usd_and_btc rates_btc_usd)
     = buy_command sample_float (trade_args "btc" "0.05") logged_out
         (sample_env [] rates_eur_usd)
  /\ sell_command sample_float (trade_args "btc" "0.05") logged_out
       (sample_env usd_and_btc rates_btc_usd)
     = sell_command sample_float (trade_args "btc" "0.05") logged_out
         (sample_env [] rates_eur_usd)
  /\ saved (buy_command sample_float (trade_args "btc" "0.05") logged_out
              (sample_env usd_and_btc rates_btc_usd)) = []
  /\ saved (sell_command sample_float (trade_args "btc" "0.05") logged_out
              (sample_env usd_and_btc rates_btc_usd)) = [].
Proof.
  apply (logged_out_commands_read_no_file sample_float
           (trade_args "btc" "0.05") logged_out
           (sample_env usd_and_btc rates_btc_usd)
           (sample_env [] rates_eur_usd)).
  reflexivity.
Defined.

(** The events of a block that starts with statements that go on. *)
Lemma trace_try_bind {A B} (t : list event) (a : A) (k : A -> cmd B)
    (handler : exn -> cmd B) :
  trace (try_except (bind (t, Next a) k) handler)
  = (t ++ trace (try_except (k a) handler))%list.
Proof.
  unfold trace, try_except, bind.
  destruct (k a) as [t' [b | | e]]; cbn [fst]; try reflexivity.
  destruct (handler e) as [t'' c]. cbn [fst]. rewrite app_assoc.
  reflexivity.
Qed.

(** X20: when the rates file cannot be loaded, the valuation of the
    portfolio of the logged-in user does not fail: it prints a warning
    and the notice that base rates are used, and goes on as it would on
    a rates file that holds the three base rates. *)
Theorem valuation_falls_back_on_base_rates
    args state env user portfolio message :
  current_user state = Some user ->
  find_portfolio_by_user_id (load_portfolios env) (user_id user)
  = Some portfolio ->
  load_rates env = Raise (ApiRequestError message) ->
  show_portfolio_command args state env
  = Out (Warning (ApiRequestError message))
      :: Out UsingBaseRates
      :: show_portfolio_command args state (with_rates env base_rates).
Proof.
  intros Huser Hfind Hload.
  unfold show_portfolio_command.
  change (load_portfolios (with_rates env base_rates))
    with (load_portfolios env).
  change (load_rates (with_rates env base_rates)) with (Ok base_rates).
  rewrite Huser. cbv zeta. unfold ret.
  rewrite !(trace_try_bind []). rewrite Hfind.
  rewrite !(trace_try_bind []). rewrite Hload.
  change (bind (print (Warning (ApiRequestError message)))
            (fun _ => bind (print UsingBaseRates)
                        (fun _ => ([], Next base_rates))))
    with ([Out (Warning (ApiRequestError message)); Out UsingBaseRates],
          Next base_rates).
  rewrite !trace_try_bind. reflexivity.
Qed.

Lemma valuation_falls_back_on_base_rates_witness :
  show_portfolio_command (base_args "USD") logged_in
    {| portfolios_file := [portfolio_of usd_and_btc];
       rates_file := Raise (ApiRequestError "rates.json not found") |}
  = Out (Warning (ApiRequestError "rates.json not found"))
      :: Out UsingBaseRates
      :: show_portfolio_command (base_args "USD") logged_in
           (with_rates
              {| portfolios_file := [portfolio_of usd_and_btc];
                 rates_file :=
                   Raise (ApiRequestError "rates.json not found") |}
              base_rates).
Proof.
  exact (valuation_falls_back_on_base_rates (base_args "USD") logged_in
           {| portfolios_file := [portfolio_of usd_and_btc];
              rates_file := Raise (ApiRequestError "rates.json not found") |}
           alice (portfolio_of usd_and_btc) "rates.json not found"
           eq_refl eq_refl eq_refl).
Defined.

Lemma saved_app (t t' : list event) :
  saved (t ++ t') = (saved t ++ saved t')%list.
Proof.
  induction t as [|[l|ps] t IH]; cbn; [reflexivity | exact IH |].
  rewrite IH. reflexivity.
Qed.

Lemma silent_ret {A} (a : A) : silent (ret a).
Proof. reflexivity. Qed.

Lemma silent_print (l : line) : silent (print l).
Proof. reflexivity. Qed.

Lemma silent_return {A} : silent (@return_ A).
Proof. reflexivity. Qed.

Lemma silent_lift {A} (r : result A) : silent (lift r).
Proof. destruct r; reflexivity. Qed.

Lemma silent_bind {A B} (m : cmd A) (k : A -> cmd B) :
  silent m -> (forall a, silent (k a)) -> silent (bind m k).
Proof.
  unfold silent, trace, bind. intros Hm Hk.
  destruct m as [t [a | | e]]; cbn [fst] in *; auto.
  specialize (Hk a). destruct (k a) as [t' c]. cbn [fst] in *.
  rewrite saved_app, Hm, Hk. reflexivity.
Qed.

Lemma silent_try_except {A} (body : cmd A) (handler : exn -> cmd A) :
  silent body -> (forall e, silent (handler e)) ->
  silent (try_except body handler).
Proof.
  unfold silent, trace, try_except. intros Hb Hh.
  destruct body as [t [a | | e]]; cbn [fst] in *; auto.
  specialize (Hh e). destruct (handler e) as [t' c]. cbn [fst] in *.
  rewrite saved_app, Hb, Hh. reflexivity.
Qed.

Ltac silent_block :=
  repeat first
    [ apply silent_ret | apply silent_print | apply silent_return
    | apply silent_lift
    | apply silent_bind; [|intros]
    | apply silent_try_except; [|intros]
    | match goal with
      | |- silent (match ?x with _ => _ end) => destruct x
      end ].

Lemma silent_wallets_loop base exchange_rates items total :
  silent (wallets_loop base exchange_rates items total).
Proof.
  revert total. induction items as [|[code wallet] items IH]; intros total;
    cbn [wallets_loop]; silent_block; apply IH.
Qed.

(** X21: neither the valuation nor the rate query ever writes the
    portfolios file, whatever their arguments, the session and the
    files. *)
Theorem queries_write_nothing args state env :
  saved (show_portfolio_command args state env) = []
  /\ saved (get_rate_command args state env) = [].
Proof.
  split.
  - unfold show_portfolio_command. cbv zeta.
    change (silent (try_except
      (bind match current_user state with
            | None => bind (print LoginFirst) (fun _ => return_)
            | Some user => ret user
            end
         (fun user =>
          bind match find_portfolio_by_user_id (load_portfolios env)
                       (user_id user) with
               | None => bind (print PortfolioNotFound) (fun _ => return_)
               | Some data => ret data
               end
            (fun portfolio_data =>
             bind match load_rates env with
                  | Ok rates => ret rates
                  | Raise (ApiRequestError msg) =>
                      bind (print (Warning (ApiRequestError msg)))
                        (fun _ => bind (print UsingBaseRates)
                                    (fun _ => ret base_rates))
                  | Raise e => lift (Raise e)
                  end
               (fun rates =>
                bind match wallets (from_dict portfolio_data) with
                     | [] => bind (print PortfolioEmpty) (fun _ => return_)
                     | _ => ret tt
                     end
                  (fun _ =>
                   bind (print (PortfolioHeader (username user)
                                  (fstr match arg_base args with
                                        | Some b => b
                                        | None => ArgStr "USD"
                                        end)))
                     (fun _ =>
                      bind (lift (build_exchange_rates rates []))
                        (fun exchange_rates =>
                         bind (wallets_loop
                                 match arg_base args with
                                 | Some b => b
                                 | None => ArgStr "USD"
                                 end exchange_rates
                                 (wallets (from_dict portfolio_data))
                                 0%float)
                           (fun total_value =>
                            bind (print Separator)
                              (fun _ =>
                               print (Total total_value
                                        (fstr match arg_base args with
                                              | Some b => b
                                              | None => ArgStr "USD"
                                              end)))))))))))
      (fun e => print (ShowError e)))).
    silent_block; apply silent_wallets_loop.
  - unfold get_rate_command.
    match goal with
    | |- saved (trace ?c) = [] => change (silent c)
    end.
    unfold find_rate. silent_block.
Qed.

End SessionSpec.
